(** * Cost-sensitive learning notebook: a shallow embedding

    Source: Section-08-Cost-Sensitive-Learning/
            08-01-Cost-when-training-ML-algorithm.ipynb

    The notebook is a straight-line script over numpy, pandas and
    scikit-learn.  Its own code is embedded as programs of a small
    state-and-exception monad; the libraries it calls are an interface
    ([Library]) whose numerical routines stay abstract. *)

From Stdlib Require Import ZArith QArith Qround Ascii String.
From stdpp Require Import base option list strings pretty gmap.

Local Open Scope Z_scope.
Local Open Scope string_scope.
Local Open Scope list_scope.

(** ** Python values *)

(** An exception, identified by the name of its class. *)
Definition exn := string.

(** Outcome of evaluating a Python expression: a value, or a raised
    exception. *)
Inductive result (A : Type) : Type :=
| Ok (a : A)
| Raise (e : exn).
Arguments Ok {A} a.
Arguments Raise {A} e.

(** [class_weight] of an estimator is [None] (an [option]), the string
    ['balanced'], or a dict [{class: penalty}]. *)
Inductive class_weight_spec : Type :=
| Balanced
| WeightDict (d : gmap Z Z).

(** The constructor arguments of [LogisticRegression] that the notebook sets.
    [None] for [n_jobs] or [random_state] is the library default. *)
Record LogisticRegression : Type := {
  penalty : string;
  solver : string;
  random_state : option Z;
  max_iter : Z;
  n_jobs : option Z;
  class_weight : option class_weight_spec
}.

(** scikit-learn's default for the [class_weight] keyword of
    [LogisticRegression.__init__] and for the [sample_weight] keyword of
    [fit]: both are [None]. *)
Definition default_class_weight : option class_weight_spec := None.
Definition default_sample_weight : option (list Z) := None.

(** ** Tables *)

(** One line of the CSV: the numeric feature columns and the label column
    ['target']. *)
Record row (F : Type) : Type := { features : list F; target : Z }.
Arguments features {F} r.
Arguments target {F} r.

(** A pandas object is a list of entries, each carrying its index label. *)
Abbreviation Table F := (list (nat * row F)).
Abbreviation DataFrame F := (list (nat * list F)).
Abbreviation Series A := (list (nat * A)).

(** [data.drop(labels=['target'], axis=1)] *)
Definition drop_target {F} (data : Table F) : DataFrame F :=
  (λ r : nat * row F, (r.1, features r.2)) <$> data.

(** [data['target']] *)
Definition target_column {F} (data : Table F) : Series Z :=
  (λ r : nat * row F, (r.1, target r.2)) <$> data.

(** [y == v] on a Series: elementwise, the index is kept. *)
Definition series_eq (y : Series Z) (v : Z) : Series bool :=
  (λ e : nat * Z, (e.1, bool_decide (e.2 = v))) <$> y.

(** [np.where(cond, a, b)] with scalar [a] and [b]: a plain array, one entry
    per entry of [cond], by position. *)
Definition np_where (cond : Series bool) (a b : Z) : list Z :=
  (λ e : nat * bool, if e.2 then a else b) <$> cond.

(** The number of entries of [s] with value [v]. *)
Definition count_of (v : Z) (s : Series Z) : nat :=
  length (filter (λ e : nat * Z, e.2 = v) s).

(** ** The libraries *)

(** What the notebook needs of numpy, pandas and scikit-learn.  The
    generator, the optimiser and the metric are left abstract; only the
    shape of their results is fixed. *)
Class Library : Type := {
  float : Type;
  (** [str.format] of a float *)
  format_float : float → string;
  (** numpy's [RandomState]: seeding, and [permutation(n)], which returns a
      shuffled [arange(n)] and advances the generator. *)
  RandomState : Type;
  seed : Z → RandomState;
  permutation : RandomState → nat → list nat * RandomState;
  permutation_perm : ∀ g n, (permutation g n).1 ≡ₚ seq 0 n;
  (** [sklearn.utils.all_estimators], calling an estimator class without
      arguments, and [hasattr] on the instance. *)
  estimator_class : Type;
  estimator : Type;
  all_estimators_impl : string → result (list (string * estimator_class));
  construct_impl : estimator_class → result estimator;
  hasattr : estimator → string → bool;
  (** The fitted state of a [LogisticRegression], and the three numerical
      routines. [predict_proba] returns one row [(P(-1), P(+1))] per sample. *)
  model : Type;
  fit_impl : LogisticRegression → DataFrame float → Series Z →
             option (list Z) → RandomState → result model * RandomState;
  predict_proba_impl : model → DataFrame float → result (list (float * float));
  roc_auc_score_impl : list Z → list float → result float
}.

(** ** The interpreter state and the monad of cells *)

Section Notebook.
Context `{L : Library}.

(** What the kernel does, in order: text written to standard output and
    the library calls, each with the arguments that matter below. *)
Inductive event : Type :=
| Print (s : string)
| AllEstimators (type_filter : string)
| Construct (name : string)
| ReadCsv (path : string)
| Sample (n : nat)
| TrainTestSplit (X : DataFrame float) (y : Series Z)
| Fit (logit : LogisticRegression) (X : DataFrame float) (y : Series Z)
      (sample_weight : option (list Z))
| PredictProba (m : model) (X : DataFrame float)
| RocAucScore (y_true : list Z) (y_score : list float).

(** The state of a run: the events so far, numpy's global generator and the
    files on disk (by the path the program names, already parsed). *)
Record world : Type := {
  trace : list event;
  np_random : RandomState;
  files : gmap string (Table float)
}.

(** A cell is a state transformer that can raise.  The state reached when
    an exception is raised is kept: what was printed stays printed. *)
Definition M (A : Type) : Type := world → result A * world.

Global Instance M_ret : MRet M := λ A a w, (Ok a, w).
Global Instance M_bind : MBind M := λ A B f m w,
  match m w with
  | (Ok a, w') => f a w'
  | (Raise e, w') => (Raise e, w')
  end.

Definition raise {A} (e : exn) : M A := λ w, (Raise e, w).

Definition lift {A} (r : result A) : M A := λ w, (r, w).

Definition log (ev : event) : M unit := λ w,
  (Ok (), {| trace := trace w ++ [ev]; np_random := np_random w;
             files := files w |}).

(** [try: body except: handler], with a bare [except] that catches every
    exception. *)
Definition try_except (body handler : M unit) : M unit := λ w,
  match body w with
  | (Ok _, w') => (Ok (), w')
  | (Raise _, w') => handler w'
  end.

(** [print(s)] *)
Definition print (s : string) : M unit := log (Print s).

(** The text on standard output, one entry per [print]. *)
Definition stdout (w : world) : list string :=
  omap (λ ev, match ev with Print s => Some s | _ => None end) (trace w).

(** scikit-learn's [check_random_state] and numpy's global generator: an
    integer seed gives a private generator seeded with it, [None] draws from
    the global generator and advances it. *)
Definition with_random_state {A} (random_state : option Z)
    (f : RandomState → A * RandomState) : M A := λ w,
  match random_state with
  | Some s => (Ok (f (seed s)).1, w)
  | None => (Ok (f (np_random w)).1,
             {| trace := trace w; np_random := (f (np_random w)).2;
                files := files w |})
  end.

(** Positional selection [df.iloc[idx]]; an index out of range raises. *)
Definition iloc {A} (df : list A) (idx : list nat) : M (list A) :=
  match mapM (λ i, df !! i) idx with
  | Some rows => mret rows
  | None => raise "IndexError"
  end.

(** ** Library calls, as the notebook makes them *)

(** [all_estimators(type_filter=...)] *)
Definition all_estimators (type_filter : string)
    : M (list (string * estimator_class)) :=
  log (AllEstimators type_filter);; lift (all_estimators_impl type_filter).

(** [class_()] for the class listed under [name] *)
Definition construct (name : string) (class_ : estimator_class)
    : M estimator :=
  log (Construct name);; lift (construct_impl class_).

(** [pd.read_csv(path)] *)
Definition read_csv (path : string) : M (Table float) :=
  log (ReadCsv path);;
  w ← (λ w, (Ok w, w));
  match files w !! path with
  | Some df => mret df
  | None => raise "FileNotFoundError"
  end.

(** [df.sample(n)]: [n] rows without replacement, drawn with the global
    generator since no [random_state] is given; a negative [n], or more
    rows than the table has, is an error. *)
Definition sample (df : Table float) (n : Z) : M (Table float) :=
  log (Sample (Z.to_nat n));;
  if decide (n < 0) then raise "ValueError"
  else if decide (Z.of_nat (length df) < n) then raise "ValueError"
  else idx ← with_random_state None (λ g, permutation g (length df));
       iloc df (take (Z.to_nat n) idx).

(** Number of test rows for a fractional [test_size]:
    [ceil(test_size * n_samples)]. *)
Definition n_test_of (test_size : Q) (n_samples : nat) : nat :=
  Z.to_nat (Qceiling (test_size * inject_Z (Z.of_nat n_samples))).

(** Modelled from the spec: [train_test_split] is scikit-learn's, its body
    is not part of the notebook.  The rows are partitioned into a training
    and a test subset by random assignment with a fixed ratio: a shuffled
    order of the row positions is drawn from the generator named by
    [random_state]; the first [ceil(test_size * n)] positions are the test
    subset and the remaining ones the training subset. [X] and [y] are cut
    at the same positions.  Arrays of different lengths, or an empty
    training subset, are a [ValueError]. *)
Definition train_test_split (X : DataFrame float) (y : Series Z)
    (test_size : Q) (random_state : option Z)
    : M (DataFrame float * DataFrame float * Series Z * Series Z) :=
  log (TrainTestSplit X y);;
  if decide (length X ≠ length y) then raise "ValueError" else
  let n_samples := length X in
  let n_test := n_test_of test_size n_samples in
  let n_train := (n_samples - n_test)%nat in
  if decide (n_train = 0%nat) then raise "ValueError" else
  perm ← with_random_state random_state (λ g, permutation g n_samples);
  let ind_test := take n_test perm in
  let ind_train := take n_train (drop n_test perm) in
  X_train ← iloc X ind_train;
  X_test ← iloc X ind_test;
  y_train ← iloc y ind_train;
  y_test ← iloc y ind_test;
  mret (X_train, X_test, y_train, y_test).

(** [logit.fit(X, y, sample_weight=...)] *)
Definition fit (logit : LogisticRegression) (X : DataFrame float)
    (y : Series Z) (sample_weight : option (list Z)) : M model :=
  log (Fit logit X y sample_weight);;
  r ← with_random_state (random_state logit)
        (fit_impl logit X y sample_weight);
  lift r.

(** [logit.predict_proba(X)] *)
Definition predict_proba (m : model) (X : DataFrame float)
    : M (list (float * float)) :=
  log (PredictProba m X);; lift (predict_proba_impl m X).

(** [roc_auc_score(y_true, y_score)] *)
Definition roc_auc_score (y_true : Series Z) (y_score : list float)
    : M float :=
  log (RocAucScore (y_true.*2) y_score);;
  lift (roc_auc_score_impl (y_true.*2) y_score).

(** ** The cells *)

(** Cell 1: list the classifiers that have a [class_weight] attribute.
<<
    for name, class_ in estimators:
        try:
            if hasattr(class_(), 'class_weight'):
                print(name)
        except:
            pass
>> *)
Fixpoint enumerate_class_weight
    (estimators : list (string * estimator_class)) : M unit :=
  match estimators with
  | [] => mret ()
  | (name, class_) :: rest =>
      try_except
        (obj ← construct name class_;
         if hasattr obj "class_weight" then print name else mret ())
        (mret ());;
      enumerate_class_weight rest
  end.

Definition cell_1 : M unit :=
  estimators ← all_estimators "classifier";
  enumerate_class_weight estimators.

(** Cell 4: [data = pd.read_csv('../kdd2004.csv').sample(10000)] *)
Definition csv_path : string := "../kdd2004.csv".

Definition cell_4 : M (Table float) :=
  df ← read_csv csv_path;
  sample df 10000.

(** Cell 6: the train/test split. *)
Definition cell_6 (data : Table float)
    : M (DataFrame float * DataFrame float * Series Z * Series Z) :=
  train_test_split (drop_target data) (target_column data) 0.3%Q (Some 0).

(** Column 1 of the array returned by [predict_proba]: [pred[:, 1]]. *)
Definition column_1 (pred : list (float * float)) : list float := pred.*2.

Definition score_line (score : float) : string :=
  "Random Forests roc-auc: " +:+ format_float score.

End Notebook.

(** Cell 8: [run_Logit] with the weights given to the constructor. *)
Module ClassWeight.
Section ClassWeight.
Context `{L : Library}.

Definition logit (class_weight : option class_weight_spec)
    : LogisticRegression :=
  {| penalty := "l2"; solver := "newton-cg"; random_state := Some 0;
     max_iter := 10; n_jobs := Some 4; class_weight := class_weight |}.

Definition run_Logit (X_train X_test : DataFrame float)
    (y_train y_test : Series Z) (class_weight : option class_weight_spec)
    : M unit :=
  fitted ← fit (logit class_weight) X_train y_train default_sample_weight;
  print "Train set";;
  pred ← predict_proba fitted X_train;
  score ← roc_auc_score y_train (column_1 pred);
  print (score_line score);;
  print "Test set";;
  pred ← predict_proba fitted X_test;
  score ← roc_auc_score y_test (column_1 pred);
  print (score_line score).
End ClassWeight.
End ClassWeight.

(** Cell 14: [run_Logit] redefined, with the weights given to [fit]. *)
Module SampleWeight.
Section SampleWeight.
Context `{L : Library}.

Definition logit : LogisticRegression :=
  {| penalty := "l2"; solver := "newton-cg"; random_state := Some 0;
     max_iter := 10; n_jobs := Some 4;
     class_weight := default_class_weight |}.

Definition run_Logit (X_train X_test : DataFrame float)
    (y_train y_test : Series Z) (sample_weight : option (list Z))
    : M unit :=
  fitted ← fit logit X_train y_train sample_weight;
  print "Train set";;
  pred ← predict_proba fitted X_train;
  score ← roc_auc_score y_train (column_1 pred);
  print (score_line score);;
  print "Test set";;
  pred ← predict_proba fitted X_test;
  score ← roc_auc_score y_test (column_1 pred);
  print (score_line score).
End SampleWeight.
End SampleWeight.

Section Program.
Context `{L : Library}.

(** The dict of cell 11: [{-1:1, 1:10}]. *)
Definition cell_11_weights : gmap Z Z := {[ -1 := 1; 1 := 10 ]}.

(** The vector of cell 16: [np.where(y_train==1,99,1)]. *)
Definition cell_16_weights (y_train : Series Z) : list Z :=
  np_where (series_eq y_train 1) 99 1.

(** Cells 9 to 11 and 15 to 16: the five calls of [run_Logit]. *)
Definition fit_and_score_cells (X_train X_test : DataFrame float)
    (y_train y_test : Series Z) : M unit :=
  ClassWeight.run_Logit X_train X_test y_train y_test None;;
  ClassWeight.run_Logit X_train X_test y_train y_test (Some Balanced);;
  ClassWeight.run_Logit X_train X_test y_train y_test
    (Some (WeightDict cell_11_weights));;
  SampleWeight.run_Logit X_train X_test y_train y_test None;;
  SampleWeight.run_Logit X_train X_test y_train y_test
    (Some (cell_16_weights y_train)).

(** Split, fit and score, from the table in memory (cell 6 onwards). *)
Definition pipeline (data : Table float) : M unit :=
  split ← cell_6 data;
  let '(X_train, X_test, y_train, y_test) := split in
  fit_and_score_cells X_train X_test y_train y_test.

(** The whole notebook, cells in order. *)
Definition notebook : M unit :=
  cell_1;;
  data ← cell_4;
  pipeline data.
End Program.

(** ** Vocabulary of the statements *)

(** The two definitions of [run_Logit], under one name. *)
Inductive weighting : Type :=
| ByClassWeight (class_weight : option class_weight_spec)
| BySampleWeight (sample_weight : option (list Z)).

(** [rows] are the entries of [df] at the positions [idx], in that order. *)
Definition at_positions {A} (df : list A) (idx : list nat) (rows : list A)
    : Prop :=
  Forall2 (λ i r, df !! i = Some r) idx rows.

Section Vocabulary.
Context `{L : Library}.

Definition run_Logit_with (v : weighting) (X_train X_test : DataFrame float)
    (y_train y_test : Series Z) : M unit :=
  match v with
  | ByClassWeight cw => ClassWeight.run_Logit X_train X_test y_train y_test cw
  | BySampleWeight sw => SampleWeight.run_Logit X_train X_test y_train y_test sw
  end.

Definition logit_of (v : weighting) : LogisticRegression :=
  match v with
  | ByClassWeight cw => ClassWeight.logit cw
  | BySampleWeight _ => SampleWeight.logit
  end.

Definition sample_weight_of (v : weighting) : option (list Z) :=
  match v with
  | ByClassWeight _ => default_sample_weight
  | BySampleWeight sw => sw
  end.

(** The data each [fit] of a trace was given. *)
Definition fitted_on (tr : list event)
    : list (DataFrame float * Series Z) :=
  omap (λ ev, match ev with Fit _ X y _ => Some (X, y) | _ => None end) tr.

(** What a complete run of [run_Logit] appends to the trace. *)
Definition run_Logit_events (v : weighting) (X_train X_test : DataFrame float)
    (y_train y_test : Series Z) (m : model)
    (pred_train pred_test : list (float * float))
    (score_train score_test : float) : list event :=
  [Fit (logit_of v) X_train y_train (sample_weight_of v);
   Print "Train set";
   PredictProba m X_train;
   RocAucScore (y_train.*2) (column_1 pred_train);
   Print (score_line score_train);
   Print "Test set";
   PredictProba m X_test;
   RocAucScore (y_test.*2) (column_1 pred_test);
   Print (score_line score_test)].

Definition add_events (w : world) (evs : list event) : world :=
  {| trace := trace w ++ evs; np_random := np_random w; files := files w |}.

(** [m] reads nothing of the state and changes nothing but the trace: its
    result and the events it appends, all of them in [P], are the same
    from every state. *)
Definition emits {A} (P : event → Prop) (m : M A) : Prop :=
  ∃ r evs, Forall P evs ∧ ∀ w, m w = (r, add_events w evs).

(** Events of the listing of cell 1. *)
Definition is_listing (ev : event) : Prop :=
  match ev with
  | AllEstimators _ | Construct _ | Print _ => True
  | _ => False
  end.

(** Events of a fit-and-score call. *)
Definition is_scoring (ev : event) : Prop :=
  match ev with
  | Fit _ _ _ _ | PredictProba _ _ | RocAucScore _ _ | Print _ => True
  | _ => False
  end.

(** Events of a fit-and-score call that fits the classifier [lr]. *)
Definition is_scoring_of (lr : LogisticRegression) (ev : event) : Prop :=
  match ev with
  | Fit lr' _ _ _ => lr' = lr
  | PredictProba _ _ | RocAucScore _ _ | Print _ => True
  | _ => False
  end.

Definition is_read (ev : event) : Prop :=
  match ev with ReadCsv _ => True | _ => False end.

(** The paths handed to [read_csv], in order. *)
Definition csv_reads (tr : list event) : list string :=
  omap (λ ev, match ev with ReadCsv p => Some p | _ => None end) tr.

(** A path is relative when it does not start at the root. *)
Definition is_relative (path : string) : bool :=
  match path with
  | String "/"%char _ => false
  | _ => true
  end.

(** The dicts given as [class_weight] to the classifiers fitted in a
    trace. *)
Definition class_weight_dicts (tr : list event) : list (gmap Z Z) :=
  omap (λ ev, match ev with
              | Fit lr _ _ _ =>
                  match class_weight lr with
                  | Some (WeightDict d) => Some d
                  | _ => None
                  end
              | _ => None
              end) tr.

(** A fit event carries no dict, or the dict of cell 11. *)
Definition dict_is_cell_11 (ev : event) : Prop :=
  ∀ d, class_weight_dicts [ev] = [d] → d = cell_11_weights.

(** What the loop of cell 1 appends for a list of estimators. *)
Definition listing_events (ests : list (string * estimator_class))
    : list event :=
  ests ≫= λ '(name, class_),
    Construct name ::
    match construct_impl class_ with
    | Ok obj => if hasattr obj "class_weight" then [Print name] else []
    | Raise _ => []
    end.

(** The names cell 1 prints: the classes that can be built without
    arguments and have the attribute. *)
Definition with_class_weight (ests : list (string * estimator_class))
    : list string :=
  omap (λ '(name, class_),
          match construct_impl class_ with
          | Ok obj => if hasattr obj "class_weight" then Some name else None
          | Raise _ => None
          end) ests.

(** The first library call of a fit-and-score call that raises. *)
Inductive run_Logit_failure (v : weighting)
    (X_train X_test : DataFrame float) (y_train y_test : Series Z)
    : exn → Prop :=
| fit_fails e :
    (fit_impl (logit_of v) X_train y_train (sample_weight_of v) (seed 0)).1
      = Raise e →
    run_Logit_failure v X_train X_test y_train y_test e
| predict_train_fails m e :
    (fit_impl (logit_of v) X_train y_train (sample_weight_of v) (seed 0)).1
      = Ok m →
    predict_proba_impl m X_train = Raise e →
    run_Logit_failure v X_train X_test y_train y_test e
| score_train_fails m pred e :
    (fit_impl (logit_of v) X_train y_train (sample_weight_of v) (seed 0)).1
      = Ok m →
    predict_proba_impl m X_train = Ok pred →
    roc_auc_score_impl (y_train.*2) (column_1 pred) = Raise e →
    run_Logit_failure v X_train X_test y_train y_test e
| predict_test_fails m pred score e :
    (fit_impl (logit_of v) X_train y_train (sample_weight_of v) (seed 0)).1
      = Ok m →
    predict_proba_impl m X_train = Ok pred →
    roc_auc_score_impl (y_train.*2) (column_1 pred) = Ok score →
    predict_proba_impl m X_test = Raise e →
    run_Logit_failure v X_train X_test y_train y_test e
| score_test_fails m pred score pred' e :
    (fit_impl (logit_of v) X_train y_train (sample_weight_of v) (seed 0)).1
      = Ok m →
    predict_proba_impl m X_train = Ok pred →
    roc_auc_score_impl (y_train.*2) (column_1 pred) = Ok score →
    predict_proba_impl m X_test = Ok pred' →
    roc_auc_score_impl (y_test.*2) (column_1 pred') = Raise e →
    run_Logit_failure v X_train X_test y_train y_test e.

(** A failure before the split: listing the estimators, opening the
    file, or sampling more rows than the file has. *)
Inductive load_failure (w : world) : exn → Prop :=
| listing_fails e :
    all_estimators_impl "classifier" = Raise e → load_failure w e
| file_missing ests :
    all_estimators_impl "classifier" = Ok ests →
    files w !! csv_path = None →
    load_failure w "FileNotFoundError"
| sample_too_large ests df :
    all_estimators_impl "classifier" = Ok ests →
    files w !! csv_path = Some df →
    Z.of_nat (length df) < 10000 →
    load_failure w "ValueError".

(** The claim that a failing library call always surfaces, for the
    constructor calls of cell 1. *)
Definition constructor_failures_propagate : Prop :=
  ∀ w ests name class_ e,
    all_estimators_impl "classifier" = Ok ests →
    (name, class_) ∈ ests →
    construct_impl class_ = Raise e →
    (cell_1 w).1 = Raise e.

(** The text a list of events writes to standard output. *)
Definition printed (evs : list event) : list string :=
  omap (λ ev, match ev with Print s => Some s | _ => None end) evs.

(** The classes a trace called without arguments, by name, in order. *)
Definition constructed (tr : list event) : list string :=
  omap (λ ev, match ev with Construct name => Some name | _ => None end) tr.

(** Features and labels put back into one table, row by row: the inverse of
    [drop_target] and [target_column]. *)
Definition join_rows (X : DataFrame float) (y : Series Z) : Table float :=
  zip_with (λ (x : nat * list float) (l : nat * Z),
              (x.1, {| features := x.2; target := l.2 |})) X y.

(** The four lines of a complete fit-and-score call. *)
Definition is_block (lines : list string) : Prop :=
  ∃ score_train score_test,
    lines = ["Train set"; score_line score_train;
             "Test set"; score_line score_test].

(** What a fit-and-score call has printed when it raises. *)
Definition is_partial_block (lines : list string) : Prop :=
  lines = [] ∨ lines = ["Train set"] ∨
  ∃ score_train, lines = ["Train set"; score_line score_train; "Test set"].

(** Events of the fit-and-score call [v] on one training subset. *)
Definition is_call_of (v : weighting) (X_train : DataFrame float)
    (y_train : Series Z) (ev : event) : Prop :=
  match ev with
  | Fit lr X y sw =>
      lr = logit_of v ∧ X = X_train ∧ y = y_train ∧ sw = sample_weight_of v
  | PredictProba _ _ | RocAucScore _ _ | Print _ => True
  | _ => False
  end.

(** A fit is given class weights or sample weights, never both. *)
Definition one_weighting (ev : event) : Prop :=
  match ev with
  | Fit lr _ _ sw => class_weight lr = None ∨ sw = None
  | _ => True
  end.

(** The sum of a weight vector. *)
Definition total_weight (weights : list Z) : Z := foldr Z.add 0 weights.

(** A label of the two-class problem. *)
Definition binary_label (label : Z) : Prop := label = -1 ∨ label = 1.

(** The claim that every table cell 4 loads has labels -1 and +1 only. *)
Definition loaded_labels_binary : Prop :=
  ∀ w data,
    (cell_4 w).1 = Ok data →
    Forall (λ r : nat * row float, binary_label (target r.2)) data.

(** A line of metric text: one of the two headings, or a score line. *)
Definition is_metric_line (line : string) : Prop :=
  line = "Train set" ∨ line = "Test set" ∨ ∃ score, line = score_line score.

(** Events of a fit-and-score call that prints metric text only. *)
Definition is_metric_event (ev : event) : Prop :=
  match ev with
  | Fit _ _ _ _ | PredictProba _ _ | RocAucScore _ _ => True
  | Print line => is_metric_line line
  | _ => False
  end.

(** An event that prints nothing, or a line of metric text. *)
Definition prints_metric (ev : event) : Prop :=
  Forall is_metric_line (printed [ev]).

(** The claim that a run writes nothing but metric text. *)
Definition only_metric_text_written : Prop :=
  ∀ w line,
    line ∈ stdout (notebook w).2 → line ∈ stdout w ∨ is_metric_line line.

(** The names cell 1 prints. *)
Definition listed_names : list string :=
  match all_estimators_impl "classifier" with
  | Ok ests => with_class_weight ests
  | Raise _ => []
  end.

End Vocabulary.

(** ** A small library instance

    A stand-in for the libraries on which the programs can be run: floats
    are integers, the generator is a counter whose shuffle is a rotation, a
    fitted model is the total weight of the positive rows, and the score
    counts the correctly ordered (positive, negative) pairs. *)
Module Toy.
Definition rotation (g n : nat) : list nat * nat := (rotate g (seq 0 n), S g).

(** A class whose constructor needs arguments raises when called without
    any; the others build an object that has, or lacks, [class_weight]. *)
Inductive klass : Type := NeedsArguments | Plain (has_class_weight : bool).

Definition classifiers : list (string * klass) :=
  [("GaussianNB", Plain false); ("LogisticRegression", Plain true);
   ("VotingClassifier", NeedsArguments); ("SVC", Plain true)].

Definition new (c : klass) : result bool :=
  match c with
  | NeedsArguments => Raise "TypeError"
  | Plain b => Ok b
  end.

Definition weight_of (logit : LogisticRegression) (label : Z) : Z :=
  match class_weight logit with
  | Some (WeightDict d) => default 1 (d !! label)
  | _ => 1
  end.

Definition fit (logit : LogisticRegression) (X : DataFrame Z)
    (y : Series Z) (sample_weight : option (list Z)) (g : nat)
    : result Z * nat :=
  let w : list Z := default ((λ _ : nat * Z, 1) <$> y) sample_weight in
  if decide (length X = length y ∧ length w = length y) then
    (Ok (foldr Z.add 0
           (zip_with (λ (e : nat * Z) k,
                        if decide (e.2 = 1) then k * weight_of logit 1 else 0)
                     y w)), g)
  else (Raise "ValueError", g).

Definition predict_proba (m : Z) (X : DataFrame Z) : result (list (Z * Z)) :=
  Ok ((λ r : nat * list Z, (- (m + default 0 (head r.2)), m + default 0 (head r.2))) <$> X).

Definition roc_auc_score (y_true y_score : list Z) : result Z :=
  let pos := (zip y_true y_score) in
  if decide (1 ∈ y_true ∧ -1 ∈ y_true) then
    Ok (Z.of_nat (length (filter (λ p : (Z * Z) * (Z * Z),
                                    p.1.1 = 1 ∧ p.2.1 = -1 ∧ p.2.2 < p.1.2)
                                 (list_prod pos pos))))
  else Raise "ValueError".

Definition library : Library :=
  {| float := Z; format_float := pretty;
     RandomState := nat; seed := λ s, (Z.to_nat s + 4)%nat;
     permutation := rotation;
     permutation_perm :=
       ltac:(abstract (intros g n; unfold rotation, rotate; cbn [fst];
                       rewrite Permutation_app_comm; by rewrite take_drop));
     estimator_class := klass; estimator := bool;
     all_estimators_impl := λ _, Ok classifiers;
     construct_impl := new; hasattr := λ b _, b;
     model := Z; fit_impl := fit;
     predict_proba_impl := predict_proba;
     roc_auc_score_impl := roc_auc_score |}.

(** Ten rows, two of them of the minority class. *)
Definition table : Table Z :=
  (λ i : nat, (i, {| features := [Z.of_nat i]; target := if decide (i = 5 ∨ i = 9)%nat then 1 else -1 |}))
    <$> seq 0 10.

(** What the split of cell 6 makes of [table]. *)
Definition X_train : DataFrame Z :=
  [(7%nat, [7]); (8%nat, [8]); (9%nat, [9]); (0%nat, [0]); (1%nat, [1]);
   (2%nat, [2]); (3%nat, [3])].
Definition X_test : DataFrame Z :=
  [(4%nat, [4]); (5%nat, [5]); (6%nat, [6])].
Definition y_train : Series Z :=
  [(7%nat, -1); (8%nat, -1); (9%nat, 1); (0%nat, -1); (1%nat, -1);
   (2%nat, -1); (3%nat, -1)].
Definition y_test : Series Z := [(4%nat, -1); (5%nat, 1); (6%nat, -1)].

(** More rows than cell 4 samples, all with a label that is neither -1
    nor +1. *)
Definition odd_table : Table Z :=
  (λ i : nat, (i, {| features := []; target := 5 |}))
    <$> seq 0 (Z.to_nat 10001).

(** More rows than cell 4 samples. *)
Definition big_table : Table Z :=
  (λ i : nat, (i, {| features := []; target := -1 |}))
    <$> seq 0 (Z.to_nat 10001).

Definition start_with (g : nat) (df : Table Z) : world (L := library) :=
  @Build_world library [] g {[ "../kdd2004.csv" := df ]}.

Definition start (df : Table Z) : world (L := library) :=
  @Build_world library [] 7%nat {[ "../kdd2004.csv" := df ]}.
End Toy.

(** ** Running programs symbolically *)

Create HintDb notebook.
#[global] Hint Unfold mbind M_bind mret M_ret raise lift log print
  try_except with_random_state fit predict_proba roc_auc_score
  all_estimators construct read_csv : notebook.

Ltac run := repeat (autounfold with notebook; cbn).

Section FitAndScore.
Context `{L : Library}.

Lemma stdout_app (tr : list event) np fs (evs : list event) :
  stdout {| trace := tr ++ evs; np_random := np; files := fs |} =
  stdout {| trace := tr; np_random := np; files := fs |} ++
  omap (λ ev, match ev with Print s => Some s | _ => None end) evs.
Proof. unfold stdout; cbn. apply omap_app. Qed.

Lemma bind_run {A B} (m : M A) (f : A → M B) w :
  (m ≫= f) w =
  match m w with
  | (Ok a, w') => f a w'
  | (Raise e, w') => (Raise e, w')
  end.
Proof. done. Qed.
End FitAndScore.

(** ** Fit and score *)

Section FitAndScoreProofs.
Context `{L : Library}.

(** Every invocation, failing or not, fits once, on the training subset. *)
Lemma run_Logit_fitted_on v X_train X_test y_train y_test w :
  fitted_on (trace (run_Logit_with v X_train X_test y_train y_test w).2) =
  fitted_on (trace w) ++ [(X_train, y_train)].
Proof.
  destruct v; cbn; unfold ClassWeight.run_Logit, SampleWeight.run_Logit; run;
    repeat case_match; cbn; unfold fitted_on;
    by rewrite ?omap_app, <- ?(assoc_L (++)).
Qed.

(** A run in which no library call raises. *)
Lemma run_Logit_complete v X_train X_test y_train y_test w
    m pred_train score_train pred_test score_test :
  (fit_impl (logit_of v) X_train y_train (sample_weight_of v) (seed 0)).1
    = Ok m →
  predict_proba_impl m X_train = Ok pred_train →
  roc_auc_score_impl (y_train.*2) (column_1 pred_train) = Ok score_train →
  predict_proba_impl m X_test = Ok pred_test →
  roc_auc_score_impl (y_test.*2) (column_1 pred_test) = Ok score_test →
  run_Logit_with v X_train X_test y_train y_test w =
    (Ok (), {| trace := trace w ++
                 run_Logit_events v X_train X_test y_train y_test m
                   pred_train pred_test score_train score_test;
               np_random := np_random w; files := files w |}).
Proof.
  intros Hfit Hp1 Hs1 Hp2 Hs2.
  destruct v; cbn in *; unfold ClassWeight.run_Logit, SampleWeight.run_Logit;
    run; rewrite Hfit, Hp1, Hs1, Hp2, Hs2; cbn;
    by rewrite <- !(assoc_L (++)).
Qed.

(** C1. Every invocation of [run_Logit], in either definition, fits the
    classifier once and on the training subset only; when no library call
    raises it then takes the predicted probabilities of the training and
    of the test subset from that one fitted model, scores each against its
    own labels with [roc_auc_score], and prints the two scores, the
    training score before the test score. *)
Theorem run_Logit_fit_and_score v X_train X_test y_train y_test w
    m pred_train score_train pred_test score_test :
  (fit_impl (logit_of v) X_train y_train (sample_weight_of v) (seed 0)).1
    = Ok m →
  predict_proba_impl m X_train = Ok pred_train →
  roc_auc_score_impl (y_train.*2) (column_1 pred_train) = Ok score_train →
  predict_proba_impl m X_test = Ok pred_test →
  roc_auc_score_impl (y_test.*2) (column_1 pred_test) = Ok score_test →
  let out := run_Logit_with v X_train X_test y_train y_test w in
  out.1 = Ok () ∧
  fitted_on (trace out.2) = fitted_on (trace w) ++ [(X_train, y_train)] ∧
  trace out.2 = trace w ++
    run_Logit_events v X_train X_test y_train y_test m
      pred_train pred_test score_train score_test ∧
  stdout out.2 = stdout w ++
    ["Train set"; score_line score_train;
     "Test set"; score_line score_test].
Proof.
  intros Hfit Hp1 Hs1 Hp2 Hs2 out. split_and!.
  - unfold out. by erewrite run_Logit_complete.
  - apply run_Logit_fitted_on.
  - unfold out. by erewrite run_Logit_complete.
  - unfold out. erewrite run_Logit_complete by done.
    cbn [snd]. destruct w. apply stdout_app.
Qed.
End FitAndScoreProofs.

(** ** The train/test split *)

Section ListFacts.
Context {A : Type}.
Implicit Types (df : list A) (idx : list nat).

Lemma mapM_lookup_in_range df idx :
  Forall (λ i, i < length df)%nat idx →
  mapM (λ i, df !! i) idx = Some (omap (λ i, df !! i) idx).
Proof.
  induction 1 as [|i idx Hi _ IH]; [done|].
  destruct (lookup_lt_is_Some_2 df i Hi) as [r Hr].
  cbn. rewrite Hr; cbn. by rewrite IH.
Qed.

Lemma at_positions_omap df idx :
  Forall (λ i, i < length df)%nat idx →
  at_positions df idx (omap (λ i, df !! i) idx).
Proof. intros H. by apply mapM_Some, mapM_lookup_in_range. Qed.

Lemma omap_lookup_seq (pre df : list A) :
  omap (λ i, (pre ++ df) !! i) (seq (length pre) (length df)) = df.
Proof.
  revert pre. induction df as [|r df IH]; intros pre; [done|].
  cbn [length seq]. change (omap ?f (?x :: ?l)) with
    (match f x with Some y => y :: omap f l | None => omap f l end).
  cbv beta. rewrite list_lookup_middle by done. f_equal.
  specialize (IH (pre ++ [r])).
  by rewrite length_app, Nat.add_1_r, <- (assoc_L (++)) in IH.
Qed.

Lemma omap_lookup_perm df idx :
  idx ≡ₚ seq 0 (length df) → omap (λ i, df !! i) idx ≡ₚ df.
Proof.
  intros ->. pose proof (omap_lookup_seq [] df) as H. cbn in H. by rewrite H.
Qed.

Lemma perm_seq_in_range idx n :
  idx ≡ₚ seq 0 n → Forall (λ i, i < n)%nat idx.
Proof.
  intros Hp. apply Forall_forall. intros i Hi.
  rewrite Hp in Hi. apply elem_of_seq in Hi. lia.
Qed.
End ListFacts.

Section Split.
Context `{L : Library}.

Lemma iloc_in_range {A} (df : list A) idx (w : world) :
  Forall (λ i, i < length df)%nat idx →
  iloc df idx w = (Ok (omap (λ i, df !! i) idx), w).
Proof. intros H. unfold iloc. by rewrite mapM_lookup_in_range. Qed.

Lemma n_test_of_30 n :
  n_test_of 0.3%Q n = Z.to_nat ((3 * Z.of_nat n + 9) / 10).
Proof.
  unfold n_test_of, Qceiling, Qfloor. cbn. f_equal.
  change (Z.pos (10 * 1)) with 10.
  Z.to_euclidean_division_equations; lia.
Qed.

(** A split seeded with an integer, on arrays of one length that leave
    the training subset non-empty. *)
Lemma train_test_split_seeded X y test_size s w :
  length X = length y →
  (n_test_of test_size (length X) < length X)%nat →
  let perm := (permutation (seed s) (length X)).1 in
  let ind_test := take (n_test_of test_size (length X)) perm in
  let ind_train := drop (n_test_of test_size (length X)) perm in
  train_test_split X y test_size (Some s) w =
    (Ok (omap (λ i, X !! i) ind_train, omap (λ i, X !! i) ind_test,
         omap (λ i, y !! i) ind_train, omap (λ i, y !! i) ind_test),
     {| trace := trace w ++ [TrainTestSplit X y];
        np_random := np_random w; files := files w |}).
Proof.
  intros Hlen Hn perm ind_test ind_train.
  assert (Hperm : perm ≡ₚ seq 0 (length X)) by apply permutation_perm.
  assert (Hrange : Forall (λ i, i < length X)%nat perm)
    by by apply perm_seq_in_range.
  assert (length perm = length X) as Hlp
    by by rewrite Hperm, length_seq.
  assert (take (length X - n_test_of test_size (length X))
               (drop (n_test_of test_size (length X)) perm) = ind_train)
    as Htrain.
  { apply take_ge. unfold ind_train. rewrite length_drop. lia. }
  unfold train_test_split. run.
  rewrite decide_False by (intros ?; congruence).
  rewrite decide_False by lia. cbn.
  fold perm. rewrite Htrain. fold ind_test.
  assert (Forall (λ i, i < length X)%nat ind_train) as Htr
    by (by apply Forall_drop).
  assert (Forall (λ i, i < length X)%nat ind_test) as Hte
    by (by apply Forall_take).
  rewrite !iloc_in_range by (done || by rewrite <- Hlen).
  done.
Qed.
End Split.

Section SplitTheorem.
Context `{L : Library}.

Lemma n_test_30_lt n : (2 ≤ n)%nat → (n_test_of 0.3%Q n < n)%nat.
Proof.
  intros Hn. rewrite n_test_of_30.
  Z.to_euclidean_division_equations; lia.
Qed.

(** C2. The split of cell 6 cuts the rows of the table in memory into a
    training and a test subset: the two subsets take their rows at
    disjoint positions that together cover every position once, so their
    union is the whole table; features and labels are cut at the same
    positions; the test subset has 30% of the rows (rounded up) and the
    training subset the rest, which for the 10000 sampled rows is 3000
    and 7000. The order inside each subset is that of the shuffle. *)
Theorem train_test_split_partitions (data : Table float) (w : world) :
  (2 ≤ length data)%nat →
  ∃ ind_train ind_test X_train X_test y_train y_test,
    (cell_6 data w).1 = Ok (X_train, X_test, y_train, y_test) ∧
    at_positions (drop_target data) ind_train X_train ∧
    at_positions (drop_target data) ind_test X_test ∧
    at_positions (target_column data) ind_train y_train ∧
    at_positions (target_column data) ind_test y_test ∧
    NoDup (ind_train ++ ind_test) ∧
    ind_train ++ ind_test ≡ₚ seq 0 (length data) ∧
    X_train ++ X_test ≡ₚ drop_target data ∧
    y_train ++ y_test ≡ₚ target_column data ∧
    (3 * length data ≤ 10 * length X_test < 3 * length data + 10)%nat ∧
    (length X_train + length X_test = length data)%nat ∧
    (Z.of_nat (length data) = 10000 →
     Z.of_nat (length X_train) = 7000 ∧ Z.of_nat (length X_test) = 3000).
Proof.
  intros Hn.
  set (X := drop_target data). set (y := target_column data).
  assert (length X = length data) as HX by apply length_fmap.
  assert (length y = length data) as Hy by apply length_fmap.
  set (n_test := n_test_of 0.3%Q (length X)).
  set (perm := (permutation (seed 0) (length X)).1).
  assert (Hperm : perm ≡ₚ seq 0 (length X)) by apply permutation_perm.
  assert (Hrange : Forall (λ i, i < length X)%nat perm)
    by by apply perm_seq_in_range.
  assert (length perm = length X) as Hlp by by rewrite Hperm, length_seq.
  assert (n_test < length X)%nat as Hlt
    by (rewrite HX; unfold n_test; rewrite HX; by apply n_test_30_lt).
  assert (Hsplit : drop n_test perm ++ take n_test perm ≡ₚ perm)
    by by rewrite Permutation_app_comm, take_drop.
  assert (Forall (λ i, i < length X)%nat (drop n_test perm)) as Htr
    by by apply Forall_drop.
  assert (Forall (λ i, i < length X)%nat (take n_test perm)) as Hte
    by by apply Forall_take.
  assert (length (omap (λ i, X !! i) (take n_test perm)) = n_test) as Hlte.
  { pose proof (Forall2_length _ _ _ (at_positions_omap X _ Hte)) as Hl.
    rewrite length_take in Hl. clearbody n_test perm. lia. }
  assert (length (omap (λ i, X !! i) (drop n_test perm))
          = length X - n_test)%nat as Hltr.
  { pose proof (Forall2_length _ _ _ (at_positions_omap X _ Htr)) as Hl.
    rewrite length_drop in Hl. clearbody n_test perm. lia. }
  assert (n_test = Z.to_nat ((3 * Z.of_nat (length data) + 9) / 10))
    as Hnt by (unfold n_test; rewrite HX; apply n_test_of_30).
  assert (NoDup (drop n_test perm ++ take n_test perm)) as Hnodup
    by (rewrite Hsplit, Hperm; apply NoDup_seq).
  assert (drop n_test perm ++ take n_test perm ≡ₚ seq 0 (length data))
    as Hcover by by rewrite Hsplit, Hperm, HX.
  assert (omap (λ i, X !! i) (drop n_test perm) ++
          omap (λ i, X !! i) (take n_test perm) ≡ₚ X) as HunionX.
  { rewrite <- omap_app. apply omap_lookup_perm. by rewrite Hsplit. }
  assert (omap (λ i, y !! i) (drop n_test perm) ++
          omap (λ i, y !! i) (take n_test perm) ≡ₚ y) as Huniony.
  { rewrite <- omap_app. apply omap_lookup_perm.
    by rewrite Hsplit, Hperm, HX, Hy. }
  exists (drop n_test perm), (take n_test perm).
  eexists _, _, _, _. split.
  { unfold cell_6. fold X y.
    rewrite train_test_split_seeded by (congruence || done). done. }
  fold n_test perm. split_and!; try done.
  - by apply at_positions_omap.
  - by apply at_positions_omap.
  - apply at_positions_omap. by rewrite Hy, <- HX.
  - apply at_positions_omap. by rewrite Hy, <- HX.
  - rewrite Hlte. clearbody n_test perm.
    zify; Z.to_euclidean_division_equations; lia.
  - rewrite Hlte. clearbody n_test perm.
    zify; Z.to_euclidean_division_equations; lia.
  - rewrite Hlte, Hltr. rewrite HX in *. clearbody n_test perm X. lia.
  - intros H10. rewrite Hlte, Hltr, HX. clearbody n_test perm.
    rewrite H10 in Hnt. change ((3 * 10000 + 9) `div` 10) with 3000 in Hnt.
    lia.
Qed.
End SplitTheorem.

(** ** Programs that only append events *)

Section Emits.
Context `{L : Library}.

Lemma add_events_nil w : add_events w [] = w.
Proof. destruct w; unfold add_events; cbn. by rewrite app_nil_r. Qed.

Lemma add_events_app w evs1 evs2 :
  add_events (add_events w evs1) evs2 = add_events w (evs1 ++ evs2).
Proof. unfold add_events; cbn. by rewrite (assoc_L (++)). Qed.

Lemma emits_ret {A} P (a : A) : emits P (mret a).
Proof.
  exists (Ok a), []. split; [done|]. intros w. by rewrite add_events_nil.
Qed.

Lemma emits_raise {A} P e : emits P (raise (A := A) e).
Proof.
  exists (Raise e), []. split; [done|]. intros w. by rewrite add_events_nil.
Qed.

Lemma emits_lift {A} P (r : result A) : emits P (lift r).
Proof.
  exists r, []. split; [done|]. intros w. by rewrite add_events_nil.
Qed.

Lemma emits_log (P : event → Prop) ev : P ev → emits P (log ev).
Proof. intros HP. exists (Ok ()), [ev]. split; [by constructor|done]. Qed.

Lemma emits_bind {A B} P (m : M A) (f : A → M B) :
  emits P m → (∀ a, emits P (f a)) → emits P (m ≫= f).
Proof.
  intros (r & evs & HP & Hm) Hf. destruct r as [a|e].
  - destruct (Hf a) as (r' & evs' & HP' & Hfa).
    exists r', (evs ++ evs'). split; [by apply Forall_app|].
    intros w. run. by rewrite Hm, Hfa, add_events_app.
  - exists (Raise e), evs. split; [done|]. intros w. run. by rewrite Hm.
Qed.

Lemma emits_try_except P (body handler : M unit) :
  emits P body → emits P handler → emits P (try_except body handler).
Proof.
  intros (r & evs & HP & Hb) (r' & evs' & HP' & Hh). destruct r as [[]|e].
  - exists (Ok ()), evs. split; [done|]. intros w. run. by rewrite Hb.
  - exists r', (evs ++ evs'). split; [by apply Forall_app|].
    intros w. run. by rewrite Hb, Hh, add_events_app.
Qed.

Lemma emits_seeded {A} P s (f : RandomState → A * RandomState) :
  emits P (with_random_state (Some s) f).
Proof.
  exists (Ok (f (seed s)).1), []. split; [done|].
  intros w. by rewrite add_events_nil.
Qed.

Lemma emits_iloc {A} P (df : list A) idx : emits P (iloc df idx).
Proof. unfold iloc. case_match; [apply emits_ret | apply emits_raise]. Qed.

Lemma emits_mono {A} (P Q : event → Prop) (m : M A) :
  (∀ ev, P ev → Q ev) → emits P m → emits Q m.
Proof.
  intros HPQ (r & evs & HP & Hm). exists r, evs. split; [|done].
  eapply Forall_impl; eauto.
Qed.
End Emits.

#[global] Hint Resolve emits_ret emits_raise emits_lift emits_seeded
  emits_iloc : notebook.

(** Splits an [emits] goal along the structure of the program. *)
Ltac emits_step :=
  lazymatch goal with
  | |- emits _ (_ ≫= _) => apply emits_bind; [|intros ?]
  | |- emits _ (try_except _ _) => apply emits_try_except
  | |- emits _ (log _) => apply emits_log; cbn; try done
  | |- emits _ (if ?c then _ else _) => destruct c
  | |- emits _ (match ?x with _ => _ end) => destruct x
  | |- emits _ _ => solve [auto with notebook]
  end.

Ltac emits := repeat emits_step.

(** ** Which events each part of the notebook appends *)

Section Frames.
Context `{L : Library}.

Lemma enumerate_emits ests : emits is_listing (enumerate_class_weight ests).
Proof.
  induction ests as [|[name class_] rest IH]; cbn [enumerate_class_weight].
  - emits.
  - unfold construct. emits. unfold print. emits.
Qed.

Lemma cell_1_emits : emits is_listing cell_1.
Proof.
  unfold cell_1, all_estimators. emits. apply enumerate_emits.
Qed.

Lemma fit_emits lr X y sw s :
  random_state lr = Some s → emits is_scoring (fit lr X y sw).
Proof. intros Hs. unfold fit. rewrite Hs. emits. Qed.

Lemma run_Logit_emits v X_train X_test y_train y_test :
  emits is_scoring (run_Logit_with v X_train X_test y_train y_test).
Proof.
  destruct v; cbn; unfold ClassWeight.run_Logit, SampleWeight.run_Logit;
    (apply emits_bind; [by eapply fit_emits|intros ?]);
    unfold print, predict_proba, roc_auc_score; emits.
Qed.

Lemma fit_and_score_cells_emits X_train X_test y_train y_test :
  emits is_scoring (fit_and_score_cells X_train X_test y_train y_test).
Proof.
  unfold fit_and_score_cells. emits;
    first [ apply (run_Logit_emits (ByClassWeight _))
          | apply (run_Logit_emits (BySampleWeight _)) ].
Qed.

Lemma cell_6_emits data : emits (λ ev, ¬ is_read ev) (cell_6 data).
Proof. unfold cell_6, train_test_split. emits; auto. Qed.

Lemma pipeline_emits data : emits (λ ev, ¬ is_read ev) (pipeline data).
Proof.
  unfold pipeline. apply emits_bind; [apply cell_6_emits|].
  intros [[[X_train X_test] y_train] y_test].
  eapply emits_mono; [|apply fit_and_score_cells_emits].
  intros ev; destruct ev; cbn; tauto.
Qed.

Lemma csv_reads_none evs : Forall (λ ev, ¬ is_read ev) evs → csv_reads evs = [].
Proof.
  induction 1 as [|ev evs Hev _ IH]; [done|].
  unfold csv_reads in *. destruct ev; cbn in *; tauto.
Qed.

Lemma listing_not_read ev : is_listing ev → ¬ is_read ev.
Proof. destruct ev; cbn; tauto. Qed.
End Frames.

Section WholeRun.
Context `{L : Library}.

(** The shape of every run of the notebook: the listing of cell 1, then,
    if the run gets that far, the one [read_csv] followed by events that
    are not reads.  The files are left as they were. *)
Lemma notebook_run w :
  ∃ pre post g,
    (notebook w).2 =
      {| trace := trace w ++ pre ++ post; np_random := g;
         files := files w |} ∧
    Forall is_listing pre ∧
    (((notebook w).1 = (cell_1 w).1 ∧ (cell_1 w).1 ≠ Ok () ∧ post = []) ∨
     ((cell_1 w).1 = Ok () ∧
      ∃ rest, post = ReadCsv csv_path :: rest ∧
              Forall (λ ev, ¬ is_read ev) rest)).
Proof.
  destruct cell_1_emits as (r & pre & Hpre & Hcell1).
  unfold notebook. rewrite bind_run, Hcell1. destruct r as [[]|e]; cbn.
  2: { exists pre, [], (np_random w). rewrite app_nil_r.
       split; [done|split; [done|]]. by left. }
  rewrite bind_run. unfold cell_4, sample. run.
  destruct (files w !! csv_path) as [df|] eqn:Hfile; cbn.
  2: { exists pre, [ReadCsv csv_path], (np_random w).
       rewrite <- !(assoc_L (++)). split; [done|split; [done|]].
       right. split; [done|]. by exists []. }
  destruct (decide (10000 < 0)) as [|_]; [lia|].
  destruct (decide (Z.of_nat (length df) < 10000)); cbn.
  { exists pre, [ReadCsv csv_path; Sample (Z.to_nat 10000)], (np_random w).
    rewrite <- !(assoc_L (++)). split; [done|split; [done|]].
    right. split; [done|]. eexists; split; [done|].
    repeat constructor; cbn; tauto. }
  unfold iloc. destruct (mapM _ _) as [rows|]; cbn.
  2: { eexists pre, [ReadCsv csv_path; Sample (Z.to_nat 10000)], _.
       rewrite <- !(assoc_L (++)). split; [done|split; [done|]].
       right. split; [done|]. eexists; split; [done|].
       repeat constructor; cbn; tauto. }
  destruct (pipeline_emits rows) as (r2 & evs2 & Hevs2 & Hpipe).
  rewrite Hpipe. cbn.
  eexists pre, (ReadCsv csv_path :: Sample (Z.to_nat 10000) :: evs2), _.
  split; [|split; [done|]].
  - unfold add_events; cbn. f_equal. by rewrite <- !(assoc_L (++)).
  - right. split; [done|]. eexists; split; [done|].
    constructor; [cbn; tauto|done].
Qed.

End WholeRun.

(** ** The per-observation weights *)

Section Weights.
Context `{L : Library}.

Lemma train_test_split_lengths X y test_size rs w
    X_train X_test y_train y_test :
  (train_test_split X y test_size rs w).1
    = Ok (X_train, X_test, y_train, y_test) →
  length X_train = length y_train ∧ length X_test = length y_test.
Proof.
  unfold train_test_split, iloc.
  generalize (n_test_of test_size (length X)). intros n_test.
  rewrite bind_run. cbn.
  case_decide; [done|]. case_decide; [done|].
  rewrite bind_run.
  destruct (with_random_state _ _ _) as [[perm|e] w']; [|done].
  rewrite bind_run.
  destruct (mapM _ _) as [a|] eqn:Ha; [|done]. cbn [mret M_ret].
  rewrite bind_run.
  destruct (mapM _ (take n_test perm)) as [b|] eqn:Hb; [|done].
  cbn [mret M_ret]. rewrite bind_run.
  destruct (mapM (λ i, y !! i) _) as [c|] eqn:Hc; [|done].
  cbn [mret M_ret]. rewrite bind_run.
  destruct (mapM (λ i, y !! i) (take n_test perm)) as [d|] eqn:Hd; [|done].
  cbn.
  intros [= <- <- <- <-].
  apply length_mapM in Ha, Hb, Hc, Hd. split; congruence.
Qed.

Lemma cell_16_weights_lookup (y_train : Series Z) i :
  cell_16_weights y_train !! i =
  (λ e : nat * Z, if decide (e.2 = 1) then 99 else 1) <$> y_train !! i.
Proof.
  unfold cell_16_weights, np_where, series_eq.
  rewrite !list_lookup_fmap. destruct (y_train !! i) as [[k v]|]; cbn; [|done].
  by destruct (decide (v = 1)); [rewrite bool_decide_true|rewrite bool_decide_false].
Qed.

(** C3. The vector [np.where(y_train==1,99,1)] that cell 16 hands to
    [fit] has one entry per training row, entry [i] is 99 when training
    label [i] is 1 and 1 otherwise, and every entry is positive. *)
Theorem sample_weight_vector data w X_train X_test y_train y_test :
  (cell_6 data w).1 = Ok (X_train, X_test, y_train, y_test) →
  let sw := cell_16_weights y_train in
  length sw = length X_train ∧
  length sw = length y_train ∧
  (∀ i, sw !! i =
        (λ e : nat * Z, if decide (e.2 = 1) then 99 else 1)
          <$> y_train !! i) ∧
  Forall (λ k, 0 < k) sw ∧
  (∀ w', trace (SampleWeight.run_Logit X_train X_test y_train y_test
                  (Some sw) w').2 !! length (trace w')
         = Some (Fit SampleWeight.logit X_train y_train (Some sw))).
Proof.
  intros Hsplit sw.
  apply train_test_split_lengths in Hsplit as [Hlen _].
  assert (length sw = length y_train) as Hsw
    by (unfold sw, cell_16_weights, np_where, series_eq;
        by rewrite !length_fmap).
  split_and!.
  - congruence.
  - done.
  - apply cell_16_weights_lookup.
  - apply Forall_lookup. intros i k Hk.
    unfold sw in Hk. rewrite cell_16_weights_lookup in Hk.
    destruct (y_train !! i) as [e|]; [|done].
    injection Hk as <-. by case_decide.
  - intros w'. unfold SampleWeight.run_Logit. run.
    repeat case_match; cbn;
      rewrite <- ?(assoc_L (++)); cbn; by rewrite list_lookup_middle.
Qed.
End Weights.

(** ** The two definitions of [run_Logit] without weights *)

Section Unweighted.
Context `{L : Library}.

(** Both definitions ask the library for four parallel jobs. *)
Lemma logit_n_jobs v : n_jobs (logit_of v) = Some 4.
Proof. by destruct v. Qed.

(** C9. Without weights the two definitions of [run_Logit] build the same
    classifier (same penalty, solver, random_state, max_iter, n_jobs and
    class_weight), make the same calls and so print the same training and
    test scores from every state. *)
Theorem unweighted_variants_agree X_train X_test y_train y_test :
  ClassWeight.logit None = SampleWeight.logit ∧
  penalty (ClassWeight.logit None) = penalty SampleWeight.logit ∧
  solver (ClassWeight.logit None) = solver SampleWeight.logit ∧
  random_state (ClassWeight.logit None) = random_state SampleWeight.logit ∧
  max_iter (ClassWeight.logit None) = max_iter SampleWeight.logit ∧
  n_jobs (ClassWeight.logit None) = n_jobs SampleWeight.logit ∧
  (∀ w, ClassWeight.run_Logit X_train X_test y_train y_test None w =
        SampleWeight.run_Logit X_train X_test y_train y_test None w) ∧
  (∀ w, stdout (ClassWeight.run_Logit X_train X_test y_train y_test
                  None w).2 =
        stdout (SampleWeight.run_Logit X_train X_test y_train y_test
                  None w).2).
Proof. by split_and!. Qed.
End Unweighted.

(** ** Seeds *)

Section Seeds.
Context `{L : Library}.

Lemma omap_lookup_inj {A} (df : list A) idx1 idx2 :
  NoDup df →
  Forall (λ i, i < length df)%nat idx1 →
  Forall (λ i, i < length df)%nat idx2 →
  omap (λ i, df !! i) idx1 = omap (λ i, df !! i) idx2 → idx1 = idx2.
Proof.
  intros Hnd H1. revert idx2.
  induction H1 as [|i idx1 Hi _ IH]; intros idx2 H2 Heq.
  - destruct H2 as [|j idx2 Hj _]; [done|].
    destruct (lookup_lt_is_Some_2 df j Hj) as [r Hr].
    cbn in Heq. by rewrite Hr in Heq.
  - destruct (lookup_lt_is_Some_2 df i Hi) as [r Hr].
    destruct H2 as [|j idx2 Hj H2].
    { cbn in Heq. by rewrite Hr in Heq. }
    destruct (lookup_lt_is_Some_2 df j Hj) as [r' Hr'].
    cbn in Heq. rewrite Hr, Hr' in Heq. cbn in Heq.
    injection Heq as <- Heq. f_equal.
    + eapply NoDup_lookup; eauto.
    + by apply IH.
Qed.

Lemma emits_same_result {A} P (m : M A) w1 w2 :
  emits P m → (m w1).1 = (m w2).1.
Proof. intros (r & evs & _ & Hm). by rewrite !Hm. Qed.

Lemma emits_same_output {A} P (m : M A) :
  emits P m →
  ∃ out, ∀ w, stdout (m w).2 = stdout w ++ out.
Proof.
  intros (r & evs & _ & Hm). eexists. intros w. rewrite Hm.
  destruct w. apply stdout_app.
Qed.

(** C10. On one table in memory the split and the whole split, fit and
    score pipeline give the same training and test subsets, the same
    result and the same printed lines from every state of the global
    generator, since [train_test_split] and [LogisticRegression] are both
    seeded with 0. The sample of cell 4 is drawn with the global
    generator: two runs whose generators shuffle the rows of the file
    differently load different tables. *)
Theorem seeded_pipeline_unseeded_sample :
  (∀ data w1 w2, (cell_6 data w1).1 = (cell_6 data w2).1) ∧
  (∀ data w1 w2, (pipeline data w1).1 = (pipeline data w2).1) ∧
  (∀ data, ∃ out, ∀ w, stdout (pipeline data w).2 = stdout w ++ out) ∧
  (∀ (df : Table float) w1 w2,
     files w1 !! csv_path = Some df →
     files w2 !! csv_path = Some df →
     (10000 ≤ Z.of_nat (length df))%Z →
     NoDup (df.*1) →
     take (Z.to_nat 10000) (permutation (np_random w1) (length df)).1 ≠
     take (Z.to_nat 10000) (permutation (np_random w2) (length df)).1 →
     (cell_4 w1).1 ≠ (cell_4 w2).1).
Proof.
  split_and!.
  - intros. eapply emits_same_result, cell_6_emits.
  - intros. eapply emits_same_result, pipeline_emits.
  - intros. eapply emits_same_output, pipeline_emits.
  - intros df w1 w2 Hf1 Hf2 Hlen Hnd Hperm.
    assert (∀ g, Forall (λ i, i < length df)%nat
                   (take (Z.to_nat 10000) (permutation g (length df)).1))
      as Hrange.
    { intros g. apply Forall_take.
      eapply perm_seq_in_range, permutation_perm. }
    unfold cell_4, sample. run. rewrite Hf1, Hf2. cbn.
    destruct (decide (10000 < 0)) as [|_]; [lia|].
    destruct (decide (Z.of_nat (length df) < 10000)) as [|_]; [lia|].
    cbn. unfold iloc. rewrite !mapM_lookup_in_range by done. cbn.
    intros [= Heq]. apply Hperm.
    eapply omap_lookup_inj; [|done..].
    by eapply NoDup_fmap_1.
Qed.
End Seeds.

(** ** Exceptions *)

Section Exceptions.
Context `{L : Library}.

Lemma enumerate_run ests w :
  enumerate_class_weight ests w = (Ok (), add_events w (listing_events ests)).
Proof.
  revert w. induction ests as [|[name class_] rest IH]; intros w.
  - cbn. by rewrite add_events_nil.
  - cbn [enumerate_class_weight]. rewrite bind_run.
    unfold try_except, construct. run.
    destruct (construct_impl class_) as [obj|e]; cbn;
      [destruct (hasattr obj "class_weight"); cbn|];
      run; rewrite IH; unfold add_events; cbn; f_equal; f_equal;
      by rewrite <- !(assoc_L (++)).
Qed.

Lemma listing_events_stdout ests :
  omap (λ ev, match ev with Print s => Some s | _ => None end)
       (listing_events ests) = with_class_weight ests.
Proof.
  induction ests as [|[name class_] rest IH]; [done|].
  unfold listing_events, with_class_weight in *. cbn.
  rewrite omap_app, IH.
  destruct (construct_impl class_) as [obj|e]; cbn;
    [by destruct (hasattr obj "class_weight")|done].
Qed.

Lemma cell_1_run w ests :
  all_estimators_impl "classifier" = Ok ests →
  cell_1 w =
    (Ok (), add_events w (AllEstimators "classifier" :: listing_events ests)).
Proof.
  intros Hests. unfold cell_1. rewrite bind_run.
  unfold all_estimators. run. rewrite Hests. cbn.
  rewrite enumerate_run. unfold add_events; cbn.
  by rewrite <- !(assoc_L (++)).
Qed.
End Exceptions.

Section ExceptionTheorems.
Context `{L : Library}.

Lemma run_Logit_raises v X_train X_test y_train y_test w e :
  run_Logit_failure v X_train X_test y_train y_test e →
  (run_Logit_with v X_train X_test y_train y_test w).1 = Raise e.
Proof.
  intros Hfail.
  inversion Hfail; subst; clear Hfail;
    destruct v; cbn in *;
    unfold ClassWeight.run_Logit, SampleWeight.run_Logit; run;
    repeat match goal with
           | H : _ = Ok _ |- _ => rewrite H; clear H; cbn
           | H : _ = Raise _ |- _ => rewrite H; clear H; cbn
           end;
    done.
Qed.

Lemma notebook_raises w e : load_failure w e → (notebook w).1 = Raise e.
Proof.
  intros Hfail. unfold notebook. rewrite bind_run.
  inversion Hfail as [e' Hl|ests Hl Hfile|ests df Hl Hfile Hlen]; subst.
  - unfold cell_1. rewrite bind_run. unfold all_estimators. run.
    by rewrite Hl.
  - rewrite (cell_1_run _ ests) by done. rewrite bind_run.
    unfold cell_4. rewrite bind_run. unfold read_csv. run.
    by rewrite Hfile.
  - rewrite (cell_1_run _ ests) by done. rewrite bind_run.
    unfold cell_4. rewrite bind_run. unfold read_csv, sample. run.
    rewrite Hfile. cbn.
    destruct (decide (10000 < 0)) as [|_]; [lia|].
    by rewrite decide_True by done.
Qed.

(** C4, amended. The bare [try/except] in the loop of cell 1 is the
    notebook's one piece of error handling: whatever the constructors and
    [hasattr] do, the loop finishes normally, and it prints exactly the
    classes that could be built and have the attribute.  Every other
    failure stops the run and reaches the caller: a failure of
    [all_estimators], a missing file or a sample larger than the file makes
    the notebook raise that exception, and a fit-and-score call raises the
    exception of its first failing library call, after a single attempt to
    fit. *)
Theorem only_listing_loop_catches :
  (∀ ests w,
     (enumerate_class_weight ests w).1 = Ok () ∧
     stdout (enumerate_class_weight ests w).2 =
       stdout w ++ with_class_weight ests) ∧
  (∀ w e, load_failure w e → (notebook w).1 = Raise e) ∧
  (∀ v X_train X_test y_train y_test w e,
     run_Logit_failure v X_train X_test y_train y_test e →
     let out := run_Logit_with v X_train X_test y_train y_test w in
     out.1 = Raise e ∧
     fitted_on (trace out.2) = fitted_on (trace w) ++ [(X_train, y_train)]).
Proof.
  split_and!.
  - intros ests w. rewrite enumerate_run. split; [done|].
    cbn [snd]. unfold add_events. destruct w; cbn [trace np_random files].
    by rewrite stdout_app, listing_events_stdout.
  - apply notebook_raises.
  - intros * Hfail out. split.
    + by apply run_Logit_raises.
    + apply run_Logit_fitted_on.
Qed.
End ExceptionTheorems.

(** C4, as stated, fails: in the small library the constructor of
    [VotingClassifier] raises [TypeError], and cell 1 still finishes normally
    and goes on to print the class listed after it. *)
Lemma cell_1_suppresses_failure :
  construct_impl (Library := Toy.library) Toy.NeedsArguments = Raise "TypeError" ∧
  (cell_1 (L := Toy.library) (Toy.start Toy.table)).1 = Ok () ∧
  stdout (cell_1 (L := Toy.library) (Toy.start Toy.table)).2
    = ["LogisticRegression"; "SVC"] ∧
  ¬ constructor_failures_propagate (L := Toy.library).
Proof.
  split_and!; [done..|].
  intros H.
  specialize (H (Toy.start Toy.table) Toy.classifiers "VotingClassifier"
                Toy.NeedsArguments "TypeError" eq_refl).
  discriminate H; [|done].
  unfold Toy.classifiers. set_solver.
Qed.

(** ** Labels and class weights *)

Section Labels.
Context `{L : Library}.

Lemma run_Logit_emits_of v X_train X_test y_train y_test :
  emits (is_scoring_of (logit_of v))
        (run_Logit_with v X_train X_test y_train y_test).
Proof.
  destruct v; cbn; unfold ClassWeight.run_Logit, SampleWeight.run_Logit;
    unfold fit, print, predict_proba, roc_auc_score; cbn; emits.
Qed.

Lemma fit_and_score_cells_dicts X_train X_test y_train y_test :
  emits dict_is_cell_11 (fit_and_score_cells X_train X_test y_train y_test).
Proof.
  unfold fit_and_score_cells. emits.
  all: first [ eapply emits_mono;
                 [|apply (run_Logit_emits_of (ByClassWeight _))]
             | eapply emits_mono;
                 [|apply (run_Logit_emits_of (BySampleWeight _))] ].
  all: intros ev Hev d; destruct ev; cbn in *; try done; subst; cbn;
    congruence.
Qed.

Lemma class_weight_dicts_elem d evs :
  Forall dict_is_cell_11 evs → d ∈ class_weight_dicts evs →
  d = cell_11_weights.
Proof.
  induction 1 as [|ev evs Hev _ IH]; [by intros ?%elem_of_nil|].
  unfold class_weight_dicts in *.
  change (ev :: evs) with ([ev] ++ evs). rewrite omap_app.
  intros [Hd|Hd]%elem_of_app; [|by apply IH].
  apply Hev. unfold class_weight_dicts.
  destruct (omap _ [ev]) as [|d' [|]] eqn:Hom.
  - by apply elem_of_nil in Hd.
  - apply list_elem_of_singleton in Hd. by subst.
  - destruct ev; cbn in Hom; repeat case_match; done.
Qed.

End Labels.

(** ** The theorems at work on the small library *)

(** A complete run of the cell 16 call on the split of the ten-row table. *)
Lemma run_Logit_fit_and_score_witness :
  let out :=
    run_Logit_with (L := Toy.library)
      (BySampleWeight (Some (cell_16_weights Toy.y_train)))
      Toy.X_train Toy.X_test Toy.y_train Toy.y_test (Toy.start Toy.table) in
  out.1 = Ok () ∧
  fitted_on (trace out.2) = [(Toy.X_train, Toy.y_train)] ∧
  stdout out.2 = ["Train set"; "Random Forests roc-auc: 6";
                  "Test set"; "Random Forests roc-auc: 1"].
Proof.
  intros out.
  edestruct (run_Logit_fit_and_score (L := Toy.library)
               (BySampleWeight (Some (cell_16_weights Toy.y_train)))
               Toy.X_train Toy.X_test Toy.y_train Toy.y_test
               (Toy.start Toy.table)) as (H1 & H2 & _ & H4);
    [vm_compute; reflexivity..|].
  split; [exact H1|]. split; [exact H2|exact H4].
Defined.

(** The split of the ten-row table: three test rows, seven training rows. *)
Lemma train_test_split_partitions_witness :
  ∃ X_train X_test y_train y_test,
    (cell_6 (L := Toy.library) Toy.table (Toy.start Toy.table)).1
      = Ok (X_train, X_test, y_train, y_test) ∧
    X_train ++ X_test ≡ₚ drop_target Toy.table ∧
    y_train ++ y_test ≡ₚ target_column Toy.table ∧
    length X_test = 3%nat ∧ length X_train = 7%nat.
Proof.
  destruct (train_test_split_partitions (L := Toy.library) Toy.table
              (Toy.start Toy.table))
    as (ind_train & ind_test & X_train & X_test & y_train & y_test &
        Hrun & _ & _ & _ & _ & _ & _ & HX & Hy & Hratio & Hsum & _).
  { vm_compute. lia. }
  exists X_train, X_test, y_train, y_test.
  change (length Toy.table) with 10%nat in Hratio, Hsum.
  split; [exact Hrun|]. split; [exact HX|]. split; [exact Hy|]. lia.
Defined.

(** The weights of the seven training rows of the ten-row table. *)
Lemma sample_weight_vector_witness :
  cell_16_weights Toy.y_train = [1; 1; 99; 1; 1; 1; 1] ∧
  length (cell_16_weights Toy.y_train) = length Toy.X_train ∧
  Forall (λ k, 0 < k) (cell_16_weights Toy.y_train).
Proof.
  destruct (sample_weight_vector (L := Toy.library) Toy.table
              (Toy.start Toy.table) Toy.X_train Toy.X_test Toy.y_train
              Toy.y_test) as (Hlen & _ & _ & Hpos & _).
  { vm_compute. reflexivity. }
  split; [reflexivity|]. split; [exact Hlen|exact Hpos].
Defined.

(** On the ten-row table the listing loop finishes, the sample of 10000 rows
    fails, and scoring a one-class test subset fails inside [run_Logit]. *)
Lemma only_listing_loop_catches_witness :
  (enumerate_class_weight (L := Toy.library) Toy.classifiers
     (Toy.start Toy.table)).1 = Ok () ∧
  (notebook (L := Toy.library) (Toy.start Toy.table)).1 = Raise "ValueError" ∧
  (run_Logit_with (L := Toy.library) (ByClassWeight None)
     Toy.X_train (take 1 Toy.X_test) Toy.y_train (take 1 Toy.y_test)
     (Toy.start Toy.table)).1 = Raise "ValueError".
Proof.
  destruct (only_listing_loop_catches (L := Toy.library))
    as (Hloop & Hload & Hrun).
  split; [apply Hloop|]. split.
  - apply Hload.
    apply (sample_too_large (L := Toy.library) _ Toy.classifiers Toy.table);
      [reflexivity..|].
    vm_compute. reflexivity.
  - apply Hrun.
    eapply (score_test_fails (L := Toy.library)); vm_compute; reflexivity.
Defined.

(** Two states of the global generator: different samples of the file, the
    same pipeline result on one table. *)
Lemma seeded_pipeline_unseeded_sample_witness :
  (cell_4 (L := Toy.library) (Toy.start_with 7 Toy.big_table)).1 ≠
  (cell_4 (L := Toy.library) (Toy.start_with 8 Toy.big_table)).1 ∧
  (pipeline (L := Toy.library) Toy.table (Toy.start_with 7 Toy.table)).1 =
  (pipeline (L := Toy.library) Toy.table (Toy.start_with 8 Toy.table)).1.
Proof.
  destruct (seeded_pipeline_unseeded_sample (L := Toy.library))
    as (_ & Hpipe & _ & Hsample).
  split; [|apply Hpipe].
  apply (Hsample Toy.big_table).
  - apply lookup_singleton_eq.
  - apply lookup_singleton_eq.
  - unfold Toy.big_table. rewrite length_fmap, length_seq. lia.
  - unfold Toy.big_table. rewrite <- list_fmap_compose.
    rewrite (list_fmap_ext _ id (seq 0 (Z.to_nat 10001)))
      by done.
    rewrite list_fmap_id. apply NoDup_seq.
  - intros H. apply (f_equal head) in H. vm_compute in H. discriminate H.
Defined.


(** ** Further properties of the cells *)

Section Listing.
Context `{L : Library}.

Lemma listing_events_constructed ests :
  constructed (listing_events ests) = ests.*1.
Proof.
  induction ests as [|[name class_] rest IH]; [done|].
  unfold listing_events, constructed in *. cbn.
  rewrite omap_app, IH.
  destruct (construct_impl class_) as [obj|e]; cbn;
    [by destruct (hasattr obj "class_weight")|done].
Qed.

Lemma with_class_weight_sublist ests :
  with_class_weight ests `sublist_of` ests.*1.
Proof.
  induction ests as [|[name class_] rest IH]; [done|].
  unfold with_class_weight in *. cbn.
  destruct (construct_impl class_) as [obj|e]; cbn;
    [destruct (hasattr obj "class_weight")|];
    by (apply sublist_skip || apply sublist_cons).
Qed.

(** X1. The loop of cell 1 calls every listed class exactly once, in the
    order of the listing, also after a constructor has raised; the names it
    prints are a selection of the listed names, in the same order. *)
Theorem listing_constructs_each_once ests w :
  constructed (trace (enumerate_class_weight ests w).2)
    = constructed (trace w) ++ ests.*1 ∧
  ∃ names,
    stdout (enumerate_class_weight ests w).2 = stdout w ++ names ∧
    names `sublist_of` ests.*1.
Proof.
  rewrite enumerate_run. cbn [snd]. split.
  - cbn. unfold constructed at 1.
    rewrite omap_app. fold (constructed (trace w)).
    f_equal. apply listing_events_constructed.
  - exists (with_class_weight ests). split.
    + unfold add_events. destruct w; cbn [trace np_random files].
      by rewrite stdout_app, listing_events_stdout.
    + apply with_class_weight_sublist.
Qed.
End Listing.

Section Rejoin.
Context `{L : Library}.

Lemma join_rows_lookup (data : Table float) idx :
  join_rows (omap (λ i, drop_target data !! i) idx)
            (omap (λ i, target_column data !! i) idx)
  = omap (λ i, data !! i) idx.
Proof.
  induction idx as [|i idx IH]; [done|].
  unfold drop_target, target_column in *. cbn.
  rewrite !list_lookup_fmap.
  destruct (data !! i) as [[k [f t]]|]; cbn; [|done].
  unfold join_rows in *. cbn. by rewrite IH.
Qed.

Lemma labels_lookup (data : Table float) idx :
  (omap (λ i, drop_target data !! i) idx).*1
  = (omap (λ i, target_column data !! i) idx).*1.
Proof.
  induction idx as [|i idx IH]; [done|].
  unfold drop_target, target_column in *. cbn.
  rewrite !list_lookup_fmap.
  destruct (data !! i) as [[k r]|]; cbn; [|done]. by rewrite IH.
Qed.

(** The split of cell 6, when it does not raise, written out. *)
Lemma cell_6_inv data w X_train X_test y_train y_test :
  (cell_6 data w).1 = Ok (X_train, X_test, y_train, y_test) →
  ∃ ind_train ind_test,
    ind_train ++ ind_test ≡ₚ seq 0 (length data) ∧
    X_train = omap (λ i, drop_target data !! i) ind_train ∧
    X_test = omap (λ i, drop_target data !! i) ind_test ∧
    y_train = omap (λ i, target_column data !! i) ind_train ∧
    y_test = omap (λ i, target_column data !! i) ind_test.
Proof.
  intros Hrun.
  assert (length (drop_target data) = length data) as HX
    by apply length_fmap.
  assert (length (drop_target data) = length (target_column data)) as Hy
    by (unfold drop_target, target_column; by rewrite !length_fmap).
  destruct (decide (n_test_of 0.3%Q (length (drop_target data))
                    < length (drop_target data))%nat) as [Hlt|Hge].
  - unfold cell_6 in Hrun.
    rewrite train_test_split_seeded in Hrun by done.
    injection Hrun as <- <- <- <-.
    eexists _, _. split; [|done].
    rewrite Permutation_app_comm, take_drop, <- HX.
    apply permutation_perm.
  - exfalso. revert Hrun. unfold cell_6, train_test_split.
    rewrite bind_run. cbn.
    rewrite decide_False by (intros ?; congruence).
    by rewrite decide_True by lia.
Qed.

(** X2. Putting the features and labels of the two subsets back together
    gives the table that was split, up to the order of its rows; inside
    each subset the features and the labels carry the same index labels,
    row by row. *)
Theorem split_rejoin data w X_train X_test y_train y_test :
  (cell_6 data w).1 = Ok (X_train, X_test, y_train, y_test) →
  join_rows X_train y_train ++ join_rows X_test y_test ≡ₚ data ∧
  X_train.*1 = y_train.*1 ∧
  X_test.*1 = y_test.*1.
Proof.
  intros (ind_train & ind_test & Hperm & -> & -> & -> & ->)%cell_6_inv.
  split_and!.
  - rewrite !join_rows_lookup, <- omap_app. by apply omap_lookup_perm.
  - apply labels_lookup.
  - apply labels_lookup.
Qed.
End Rejoin.

Section WeightFacts.
Context `{L : Library}.

(** X3. Computing the weights commutes with selecting rows: the weights of
    the rows taken at some positions are the weights of the whole label
    column taken at the same positions. *)
Theorem weights_follow_rows (y y' : Series Z) idx :
  at_positions y idx y' →
  at_positions (cell_16_weights y) idx (cell_16_weights y').
Proof.
  unfold at_positions. induction 1 as [|i e idx y' Hi _ IH]; [constructor|].
  change (cell_16_weights (e :: y'))
    with ((if bool_decide (e.2 = 1) then 99 else 1) :: cell_16_weights y').
  constructor; [|done].
  rewrite cell_16_weights_lookup, Hi. cbn.
  by destruct (decide (e.2 = 1));
    [rewrite bool_decide_true|rewrite bool_decide_false].
Qed.

(** X4. The weights of cell 16 add up to the number of rows plus 98 for
    every row labelled 1; a label other than 1, whatever it is, weighs 1. *)
Theorem total_weight_cell_16 (y : Series Z) :
  total_weight (cell_16_weights y)
    = Z.of_nat (length y) + 98 * Z.of_nat (count_of 1 y) ∧
  (∀ i e, y !! i = Some e → e.2 ≠ 1 → cell_16_weights y !! i = Some 1).
Proof.
  split.
  - induction y as [|e y IH]; [done|].
    change (cell_16_weights (e :: y))
      with ((if bool_decide (e.2 = 1) then 99 else 1) :: cell_16_weights y).
    unfold total_weight in *. cbn [foldr]. rewrite IH.
    unfold count_of. rewrite filter_cons.
    destruct (decide (e.2 = 1)) as [He|He].
    + rewrite bool_decide_true by done. cbn [length]. lia.
    + rewrite bool_decide_false by done. cbn [length]. lia.
  - intros i e Hi He. rewrite cell_16_weights_lookup, Hi. cbn.
    by rewrite decide_False.
Qed.
End WeightFacts.

Section Loading.
Context `{L : Library}.

Lemma omap_lookup_take_submseteq {A} (df : list A) perm n :
  perm ≡ₚ seq 0 (length df) →
  omap (λ i, df !! i) (take n perm) ⊆+ df.
Proof.
  intros Hperm.
  etrans; [apply (submseteq_inserts_r (omap (λ i, df !! i) (drop n perm)));
           reflexivity|].
  rewrite <- omap_app, take_drop. by rewrite omap_lookup_perm.
Qed.

(** Cell 4 on a file with enough rows. *)
Lemma cell_4_run (df : Table float) w :
  files w !! csv_path = Some df →
  (10000 ≤ Z.of_nat (length df))%Z →
  cell_4 w =
    (Ok (omap (λ i, df !! i)
              (take (Z.to_nat 10000)
                    (permutation (np_random w) (length df)).1)),
     {| trace := trace w ++ [ReadCsv csv_path; Sample (Z.to_nat 10000)];
        np_random := (permutation (np_random w) (length df)).2;
        files := files w |}).
Proof.
  intros Hfile Hlen. unfold cell_4, sample. run. rewrite Hfile. cbn.
  destruct (decide (10000 < 0)) as [|_]; [lia|].
  destruct (decide (Z.of_nat (length df) < 10000)) as [|_]; [lia|].
  cbn. unfold iloc. rewrite mapM_lookup_in_range.
  - cbn. by rewrite <- !(assoc_L (++)).
  - apply Forall_take. eapply perm_seq_in_range, permutation_perm.
Qed.

Lemma sampled_length {A} (df : list A) perm n :
  perm ≡ₚ seq 0 (length df) → (n ≤ length df)%nat →
  length (omap (λ i, df !! i) (take n perm)) = n.
Proof.
  intros Hperm Hn.
  assert (Forall (λ i, i < length df)%nat (take n perm)) as Hrange
    by (apply Forall_take; by eapply perm_seq_in_range).
  pose proof (Forall2_length _ _ _ (at_positions_omap df _ Hrange)) as Hl.
  rewrite length_take in Hl.
  assert (length perm = length df) by by rewrite Hperm, length_seq.
  lia.
Qed.

(** X5. When the file has at least 10000 rows, cell 4 reads it and returns
    10000 of its rows, drawn without replacement: the sample is contained
    in the file as a multiset, so no row of the file is taken more often
    than it occurs there. The draw advances the global generator. *)
Theorem cell_4_samples (df : Table float) w :
  files w !! csv_path = Some df →
  (10000 ≤ Z.of_nat (length df))%Z →
  ∃ data,
    (cell_4 w).1 = Ok data ∧
    Z.of_nat (length data) = 10000 ∧
    data ⊆+ df ∧
    (NoDup df → NoDup data) ∧
    np_random (cell_4 w).2 = (permutation (np_random w) (length df)).2.
Proof.
  intros Hfile Hlen. rewrite (cell_4_run df) by done.
  eexists. split; [done|].
  assert ((permutation (np_random w) (length df)).1 ≡ₚ seq 0 (length df))
    as Hperm by apply permutation_perm.
  split_and!.
  - rewrite sampled_length by (done || lia). lia.
  - by apply omap_lookup_take_submseteq.
  - intros Hnd.
    destruct (submseteq_Permutation _ df
                (omap_lookup_take_submseteq df _ (Z.to_nat 10000) Hperm))
      as [rest Hrest].
    rewrite Hrest in Hnd. by apply NoDup_app in Hnd as [? _].
  - done.
Qed.
End Loading.

Section LoadThenSplit.
Context `{L : Library}.

(** The split of a table of at least two rows does not raise; the test
    subset has [ceil(0.3 * n)] rows. *)
Lemma cell_6_ok (data : Table float) w :
  (2 ≤ length data)%nat →
  ∃ X_train X_test y_train y_test,
    (cell_6 data w).1 = Ok (X_train, X_test, y_train, y_test) ∧
    length X_test = Z.to_nat ((3 * Z.of_nat (length data) + 9) / 10) ∧
    (length X_train + length X_test = length data)%nat.
Proof.
  intros Hn.
  assert (length (drop_target data) = length data) as HX
    by apply length_fmap.
  assert (length (drop_target data) = length (target_column data)) as Hy
    by (unfold drop_target, target_column; by rewrite !length_fmap).
  pose proof (n_test_30_lt (length data) Hn) as Hlt.
  pose proof (n_test_of_30 (length data)) as Hnt.
  pose proof (permutation_perm (seed 0) (length data)) as Hperm.
  unfold cell_6.
  rewrite train_test_split_seeded by (exact Hy || (rewrite HX; exact Hlt)).
  rewrite HX.
  generalize dependent (n_test_of 0.3%Q (length data)). intros n_test Hlt Hnt.
  generalize dependent (permutation (seed 0) (length data)).1.
  intros perm Hperm.
  assert (length perm = length data) as Hlp by by rewrite Hperm, length_seq.
  assert (Forall (λ i, i < length (drop_target data))%nat perm) as Hrange
    by (rewrite HX; by apply perm_seq_in_range).
  eexists _, _, _, _. split; [done|].
  assert (Forall (λ i, i < length (drop_target data))%nat
            (take n_test perm)) as Hrte by by apply Forall_take.
  assert (Forall (λ i, i < length (drop_target data))%nat
            (drop n_test perm)) as Hrtr by by apply Forall_drop.
  pose proof (Forall2_length _ _ _
    (at_positions_omap (drop_target data) _ Hrte)) as Hte.
  pose proof (Forall2_length _ _ _
    (at_positions_omap (drop_target data) _ Hrtr)) as Htr.
  rewrite length_take in Hte. rewrite length_drop in Htr.
  rewrite <- Hte, <- Htr. lia.
Qed.

(** X6. Loading and splitting compose: on a file with at least 10000 rows
    the split of the sample never raises and gives 7000 training and 3000
    test rows, features and labels alike; and if every row of the file has
    [k] feature columns, so has every row of both subsets. *)
Theorem load_then_split (df : Table float) w :
  files w !! csv_path = Some df →
  (10000 ≤ Z.of_nat (length df))%Z →
  ∃ data X_train X_test y_train y_test,
    (cell_4 w).1 = Ok data ∧
    (cell_6 data (cell_4 w).2).1 = Ok (X_train, X_test, y_train, y_test) ∧
    Z.of_nat (length X_train) = 7000 ∧ Z.of_nat (length y_train) = 7000 ∧
    Z.of_nat (length X_test) = 3000 ∧ Z.of_nat (length y_test) = 3000 ∧
    (∀ k, Forall (λ r : nat * row float, length (features r.2) = k) df →
          Forall (λ x : nat * list float, length x.2 = k)
                 (X_train ++ X_test)).
Proof.
  intros Hfile Hlen. rewrite (cell_4_run df) by done. cbn [fst snd].
  set (data := omap _ _).
  assert (data ⊆+ df) as Hsub
    by apply omap_lookup_take_submseteq, permutation_perm.
  assert (length data = Z.to_nat 10000) as Hdata.
  { apply sampled_length; [apply permutation_perm|lia]. }
  clearbody data.
  destruct (cell_6_ok data
              {| trace := trace w ++ [ReadCsv csv_path; Sample (Z.to_nat 10000)];
                 np_random := (permutation (np_random w) (length df)).2;
                 files := files w |})
    as (X_train & X_test & y_train & y_test & Hrun & Hte & Hsum); [lia|].
  exists data, X_train, X_test, y_train, y_test.
  destruct (train_test_split_lengths _ _ _ _ _ _ _ _ _ Hrun) as [Hytr Hyte].
  rewrite Hdata in Hte, Hsum.
  change ((3 * Z.of_nat (Z.to_nat 10000) + 9) `div` 10) with 3000 in Hte.
  split_and!; [done..|lia|lia|lia|lia|].
  intros k Hk.
  destruct (cell_6_inv _ _ _ _ _ _ Hrun)
    as (ind_train & ind_test & Hperm & -> & -> & _ & _).
  rewrite <- omap_app, omap_lookup_perm
    by (unfold drop_target; by rewrite length_fmap).
  unfold drop_target. apply Forall_fmap. cbn.
  apply Forall_forall. intros r Hr.
  eapply Forall_forall in Hk; [exact Hk|].
  eapply elem_of_submseteq; eauto.
Qed.
End LoadThenSplit.

Section Calls.
Context `{L : Library}.

Lemma stdout_add_events w evs :
  stdout (add_events w evs) = stdout w ++ printed evs.
Proof. destruct w. apply stdout_app. Qed.

(** A state to run a program from: nothing printed, no files. *)
Lemma run_Logit_ok_inv v X_train X_test y_train y_test w :
  (run_Logit_with v X_train X_test y_train y_test w).1 = Ok () →
  ∃ m pred_train score_train pred_test score_test,
    (fit_impl (logit_of v) X_train y_train (sample_weight_of v) (seed 0)).1
      = Ok m ∧
    predict_proba_impl m X_train = Ok pred_train ∧
    roc_auc_score_impl (y_train.*2) (column_1 pred_train) = Ok score_train ∧
    predict_proba_impl m X_test = Ok pred_test ∧
    roc_auc_score_impl (y_test.*2) (column_1 pred_test) = Ok score_test.
Proof.
  destruct v; cbn; unfold ClassWeight.run_Logit, SampleWeight.run_Logit; run;
    (destruct (fit_impl _ _ _ _ _).1 as [m|]; [|done]);
    (destruct (predict_proba_impl m X_train) as [p|] eqn:Hp; [|done]);
    (destruct (roc_auc_score_impl _ (column_1 p)) as [s|] eqn:Hs; [|done]);
    (destruct (predict_proba_impl m X_test) as [p'|] eqn:Hp'; [|done]);
    (destruct (roc_auc_score_impl _ (column_1 p')) as [s'|] eqn:Hs';
       [|done]);
    intros _; by exists m, p, s, p', s'.
Qed.

Lemma run_Logit_ok_block v X_train X_test y_train y_test w :
  (run_Logit_with v X_train X_test y_train y_test w).1 = Ok () →
  ∃ block, is_block block ∧
    stdout (run_Logit_with v X_train X_test y_train y_test w).2
      = stdout w ++ block.
Proof.
  intros (m & p & s & p' & s' & Hfit & Hp & Hs & Hp' & Hs')%run_Logit_ok_inv.
  rewrite (run_Logit_complete _ _ _ _ _ _ _ _ _ _ _ Hfit Hp Hs Hp' Hs').
  eexists. split; [by exists s, s'|].
  cbn [snd]. destruct w. by rewrite stdout_app.
Qed.

Lemma run_Logit_emits_call v X_train X_test y_train y_test :
  emits (is_call_of v X_train y_train)
        (run_Logit_with v X_train X_test y_train y_test).
Proof.
  destruct v; cbn; unfold ClassWeight.run_Logit, SampleWeight.run_Logit;
    unfold fit, print, predict_proba, roc_auc_score; cbn; emits.
Qed.

(** X7. A fit-and-score call that returns has printed its four lines; one
    that raises has printed nothing (the fit failed), only ['Train set']
    (scoring the training subset failed), or the training score and
    ['Test set'] (scoring the test subset failed). A test score is never
    printed without the training score before it. *)
Theorem run_Logit_output v X_train X_test y_train y_test w :
  let out := run_Logit_with v X_train X_test y_train y_test w in
  ∃ lines,
    stdout out.2 = stdout w ++ lines ∧
    ((out.1 = Ok () ∧ is_block lines) ∨
     (∃ e, out.1 = Raise e ∧ is_partial_block lines)).
Proof.
  intros out.
  destruct (out.1) as [[]|e] eqn:Hout.
  - destruct (run_Logit_ok_block _ _ _ _ _ _ Hout) as (block & Hb & Hs).
    exists block. split; [done|]. by left.
  - revert Hout. unfold out. clear out.
    destruct v; cbn; unfold ClassWeight.run_Logit, SampleWeight.run_Logit; run;
      (destruct (fit_impl _ _ _ _ _).1 as [m|]; cbn;
       [destruct (predict_proba_impl m X_train) as [p|]; cbn;
        [destruct (roc_auc_score_impl _ (column_1 p)) as [s|]; cbn;
         [destruct (predict_proba_impl m X_test) as [p'|]; cbn;
          [destruct (roc_auc_score_impl _ (column_1 p')) as [s'|];
           cbn|]|]|]|]);
      intros [= ->]; destruct w as [tr g fs]; unfold stdout; cbn;
      rewrite !omap_app; cbn; rewrite ?app_nil_r, <- ?(assoc_L (++)); cbn;
      (eexists; split; [first [reflexivity|symmetry; apply app_nil_r]|]);
      right; exists e;
      (split; [done|]); unfold is_partial_block; eauto.
Qed.
End Calls.

Section Composition.
Context `{L : Library}.

(** X8. What a fit-and-score call prints about the training subset does not
    depend on the test subset: two calls that differ only in the test
    subset agree on their first two lines. *)
Theorem train_lines_ignore_test v X_train y_train
    X_test y_test X_test' y_test' w :
  ∃ lines lines',
    stdout (run_Logit_with v X_train X_test y_train y_test w).2
      = stdout w ++ lines ∧
    stdout (run_Logit_with v X_train X_test' y_train y_test' w).2
      = stdout w ++ lines' ∧
    take 2 lines = take 2 lines'.
Proof.
  destruct w as [tr g fs].
  destruct v; cbn; unfold ClassWeight.run_Logit, SampleWeight.run_Logit; run;
    (destruct (fit_impl _ _ _ _ _).1 as [m|]; cbn;
     [destruct (predict_proba_impl m X_train) as [p|]; cbn;
      [destruct (roc_auc_score_impl _ (column_1 p)) as [s|]; cbn;
       [destruct (predict_proba_impl m X_test) as [p1|]; cbn;
        [destruct (roc_auc_score_impl _ (column_1 p1)) as [s1|]; cbn|];
        (destruct (predict_proba_impl m X_test') as [p2|]; cbn;
         [destruct (roc_auc_score_impl _ (column_1 p2)) as [s2|]; cbn|])
       |]|]|]);
    unfold stdout; cbn; rewrite !omap_app; cbn;
    rewrite ?app_nil_r, <- ?(assoc_L (++)); cbn;
    (eexists _, _; split_and!;
     [first [reflexivity|symmetry; apply app_nil_r]
     |first [reflexivity|symmetry; apply app_nil_r]
     |reflexivity]).
Qed.

(** The events of a call that returned, whatever the state it ran from. *)
Lemma emits_ok_block v X_train X_test y_train y_test evs :
  (∀ w, run_Logit_with v X_train X_test y_train y_test w
        = (Ok (), add_events w evs)) →
  is_block (printed evs).
Proof.
  intros Hrun.
  pose (w0 := {| trace := []; np_random := seed 0; files := ∅ |}).
  destruct (run_Logit_ok_block v X_train X_test y_train y_test w0)
    as (block & Hb & Hs); [by rewrite Hrun|].
  rewrite Hrun in Hs. cbn [snd] in Hs. rewrite stdout_add_events in Hs.
  apply app_inv_head in Hs. by rewrite Hs.
Qed.

(** X9. When the five fit-and-score cells all return, they have printed five
    blocks of four lines, and the block of cell 15 (no sample weights)
    repeats the block of cell 9 (no class weights) line for line. *)
Theorem fit_and_score_blocks X_train X_test y_train y_test w :
  (fit_and_score_cells X_train X_test y_train y_test w).1 = Ok () →
  ∃ none balanced dict weighted,
    is_block none ∧ is_block balanced ∧ is_block dict ∧ is_block weighted ∧
    stdout (fit_and_score_cells X_train X_test y_train y_test w).2
      = stdout w ++ none ++ balanced ++ dict ++ none ++ weighted.
Proof.
  destruct (run_Logit_emits (ByClassWeight None)
              X_train X_test y_train y_test) as (r1 & evs1 & _ & H1).
  destruct (run_Logit_emits (ByClassWeight (Some Balanced))
              X_train X_test y_train y_test) as (r2 & evs2 & _ & H2).
  destruct (run_Logit_emits (ByClassWeight (Some (WeightDict cell_11_weights)))
              X_train X_test y_train y_test) as (r3 & evs3 & _ & H3).
  destruct (run_Logit_emits (BySampleWeight (Some (cell_16_weights y_train)))
              X_train X_test y_train y_test) as (r5 & evs5 & _ & H5).
  assert (∀ w, SampleWeight.run_Logit X_train X_test y_train y_test None w
               = (r1, add_events w evs1)) as H4 by exact H1.
  cbn [run_Logit_with] in H1, H2, H3, H5.
  unfold fit_and_score_cells.
  rewrite bind_run, H1. destruct r1 as [[]|]; [|done].
  rewrite bind_run, H2. destruct r2 as [[]|]; [|done].
  rewrite bind_run, H3. destruct r3 as [[]|]; [|done].
  rewrite bind_run, H4, H5. destruct r5 as [[]|]; [|done].
  intros _. cbn [snd].
  exists (printed evs1), (printed evs2), (printed evs3), (printed evs5).
  split_and!.
  - by apply (emits_ok_block (ByClassWeight None) X_train X_test y_train y_test).
  - by apply (emits_ok_block (ByClassWeight (Some Balanced))
                X_train X_test y_train y_test).
  - by apply (emits_ok_block (ByClassWeight (Some (WeightDict cell_11_weights)))
                X_train X_test y_train y_test).
  - by apply (emits_ok_block
                (BySampleWeight (Some (cell_16_weights y_train)))
                X_train X_test y_train y_test).
  - rewrite !stdout_add_events. by rewrite <- !(assoc_L (++)).
Qed.

Lemma call_one_weighting v X_train y_train ev :
  (v = ByClassWeight None ∨ v = ByClassWeight (Some Balanced) ∨
   v = ByClassWeight (Some (WeightDict cell_11_weights)) ∨
   v = BySampleWeight None ∨
   v = BySampleWeight (Some (cell_16_weights y_train))) →
  is_call_of v X_train y_train ev → one_weighting ev.
Proof.
  intros Hv. destruct ev; cbn; try done.
  intros (-> & _ & _ & ->).
  destruct Hv as [-> | [-> | [-> | [-> | ->]]]]; cbn; auto.
Qed.

Lemma fit_and_score_cells_one_weighting X_train X_test y_train y_test :
  emits one_weighting (fit_and_score_cells X_train X_test y_train y_test).
Proof.
  unfold fit_and_score_cells. emits.
  all: first [ eapply emits_mono;
                 [|apply (run_Logit_emits_call (ByClassWeight _))]
             | eapply emits_mono;
                 [|apply (run_Logit_emits_call (BySampleWeight _))] ].
  all: intros ev; apply call_one_weighting; auto 10.
Qed.

(** X10. No fit of the notebook is given class weights and sample weights
    together: in every run of the split, fit and score pipeline, each fit
    has [class_weight=None] or [sample_weight=None]. *)
Theorem never_both_weightings data w :
  ∃ evs,
    trace (pipeline data w).2 = trace w ++ evs ∧
    Forall one_weighting evs.
Proof.
  assert (emits one_weighting (pipeline data)) as (r & evs & Hevs & Hrun).
  { unfold pipeline. apply emits_bind.
    - unfold cell_6, train_test_split. emits; done.
    - intros [[[X_train X_test] y_train] y_test].
      apply fit_and_score_cells_one_weighting. }
  exists evs. by rewrite Hrun.
Qed.
End Composition.

Section Fits.
Context `{L : Library}.

Lemma fitted_on_app (tr evs : list event) :
  fitted_on (tr ++ evs) = fitted_on tr ++ fitted_on evs.
Proof. apply omap_app. Qed.

Lemma emits_fits_once v X_train X_test y_train y_test r evs :
  (∀ w, run_Logit_with v X_train X_test y_train y_test w
        = (r, add_events w evs)) →
  fitted_on evs = [(X_train, y_train)].
Proof.
  intros Hrun.
  pose (w0 := {| trace := []; np_random := seed 0; files := ∅ |}).
  pose proof (run_Logit_fitted_on v X_train X_test y_train y_test w0) as H.
  by rewrite Hrun in H.
Qed.

Lemma fit_and_score_cells_fits X_train X_test y_train y_test w :
  ∃ k, (1 ≤ k ≤ 5)%nat ∧
    fitted_on (trace (fit_and_score_cells X_train X_test y_train y_test w).2)
      = fitted_on (trace w) ++ replicate k (X_train, y_train) ∧
    ((fit_and_score_cells X_train X_test y_train y_test w).1 = Ok () →
     k = 5%nat).
Proof.
  destruct (run_Logit_emits (ByClassWeight None)
              X_train X_test y_train y_test) as (r1 & evs1 & _ & H1).
  destruct (run_Logit_emits (ByClassWeight (Some Balanced))
              X_train X_test y_train y_test) as (r2 & evs2 & _ & H2).
  destruct (run_Logit_emits (ByClassWeight (Some (WeightDict cell_11_weights)))
              X_train X_test y_train y_test) as (r3 & evs3 & _ & H3).
  destruct (run_Logit_emits (BySampleWeight None)
              X_train X_test y_train y_test) as (r4 & evs4 & _ & H4).
  destruct (run_Logit_emits (BySampleWeight (Some (cell_16_weights y_train)))
              X_train X_test y_train y_test) as (r5 & evs5 & _ & H5).
  pose proof (emits_fits_once _ _ _ _ _ _ _ H1) as F1.
  pose proof (emits_fits_once _ _ _ _ _ _ _ H2) as F2.
  pose proof (emits_fits_once _ _ _ _ _ _ _ H3) as F3.
  pose proof (emits_fits_once _ _ _ _ _ _ _ H4) as F4.
  pose proof (emits_fits_once _ _ _ _ _ _ _ H5) as F5.
  cbn [run_Logit_with] in H1, H2, H3, H4, H5.
  unfold fit_and_score_cells.
  rewrite bind_run, H1. destruct r1 as [[]|].
  2: { exists 1%nat. cbn [fst snd add_events trace]. rewrite fitted_on_app, F1.
       split_and!; [lia|lia|done|done]. }
  rewrite bind_run, H2. destruct r2 as [[]|].
  2: { exists 2%nat. cbn [fst snd add_events trace]. rewrite !fitted_on_app, F1, F2.
       rewrite <- !(assoc_L (++)). split_and!; [lia|lia|done|done]. }
  rewrite bind_run, H3. destruct r3 as [[]|].
  2: { exists 3%nat. cbn [fst snd add_events trace]. rewrite !fitted_on_app, F1, F2, F3.
       rewrite <- !(assoc_L (++)). split_and!; [lia|lia|done|done]. }
  rewrite bind_run, H4. destruct r4 as [[]|].
  2: { exists 4%nat. cbn [fst snd add_events trace]. rewrite !fitted_on_app, F1, F2, F3, F4.
       rewrite <- !(assoc_L (++)). split_and!; [lia|lia|done|done]. }
  rewrite H5. exists 5%nat. cbn [fst snd add_events trace].
  rewrite !fitted_on_app, F1, F2, F3, F4, F5.
  rewrite <- !(assoc_L (++)). split_and!; [lia|lia|done|done].
Qed.

Lemma cell_6_no_fit data :
  emits (λ ev, fitted_on [ev] = []) (cell_6 data).
Proof. unfold cell_6, train_test_split. emits; done. Qed.

Lemma fitted_on_none evs :
  Forall (λ ev, fitted_on [ev] = []) evs → fitted_on evs = [].
Proof.
  induction 1 as [|ev evs Hev _ IH]; [done|].
  change (ev :: evs) with ([ev] ++ evs). by rewrite fitted_on_app, Hev, IH.
Qed.

(** X11. In every run of the split, fit and score pipeline the classifiers
    are fitted on the training subset of the split and on nothing else: at
    least once and at most five times when the split succeeds, exactly five
    times when the pipeline returns, and never when the split raises, in
    which case the pipeline raises the same exception. *)
Theorem pipeline_fits_training_only data w :
  match (cell_6 data w).1 with
  | Ok (X_train, _, y_train, _) =>
      ∃ k, (1 ≤ k ≤ 5)%nat ∧
        fitted_on (trace (pipeline data w).2)
          = fitted_on (trace w) ++ replicate k (X_train, y_train) ∧
        ((pipeline data w).1 = Ok () → k = 5%nat)
  | Raise e =>
      (pipeline data w).1 = Raise e ∧
      fitted_on (trace (pipeline data w).2) = fitted_on (trace w)
  end.
Proof.
  destruct (cell_6_no_fit data) as (r & evs & Hevs & Hrun).
  apply fitted_on_none in Hevs.
  unfold pipeline. rewrite bind_run, Hrun. cbn [fst].
  destruct r as [[[[X_train X_test] y_train] y_test]|e].
  - destruct (fit_and_score_cells_fits X_train X_test y_train y_test
                (add_events w evs)) as (k & Hk & Hfits & Hok).
    exists k. split; [done|]. split; [|done].
    rewrite Hfits. cbn [add_events trace].
    by rewrite fitted_on_app, Hevs, app_nil_r.
  - cbn [fst snd add_events trace].
    by rewrite fitted_on_app, Hevs, app_nil_r.
Qed.
End Fits.

(** ** The further properties at work on the small library *)

(** The split of the ten-row table, put back together. *)
Lemma split_rejoin_witness :
  join_rows (L := Toy.library) Toy.X_train Toy.y_train ++
  join_rows (L := Toy.library) Toy.X_test Toy.y_test ≡ₚ Toy.table ∧
  Toy.X_train.*1 = Toy.y_train.*1.
Proof.
  destruct (split_rejoin (L := Toy.library) Toy.table (Toy.start Toy.table)
              Toy.X_train Toy.X_test Toy.y_train Toy.y_test)
    as (Hjoin & Htrain & _).
  { vm_compute. reflexivity. }
  split; [exact Hjoin|exact Htrain].
Defined.

(** The weights of the training labels, taken from those of all ten. *)
Lemma weights_follow_rows_witness :
  at_positions (cell_16_weights (target_column Toy.table))
               [7; 8; 9; 0; 1; 2; 3]%nat
               (cell_16_weights Toy.y_train).
Proof.
  apply (weights_follow_rows (target_column Toy.table) Toy.y_train).
  unfold at_positions. repeat constructor.
Defined.

(** The seven training labels, one of them 1, weigh 7 + 98. *)
Lemma total_weight_cell_16_witness :
  total_weight (cell_16_weights Toy.y_train) = 105 ∧
  cell_16_weights Toy.y_train !! 0%nat = Some 1.
Proof.
  destruct (total_weight_cell_16 Toy.y_train) as [Hsum Hone].
  split.
  - rewrite Hsum. reflexivity.
  - apply (Hone 0%nat (7%nat, -1)); [reflexivity|done].
Defined.

(** Sampling the file of 10001 rows. *)
Lemma cell_4_samples_witness :
  ∃ data,
    (cell_4 (L := Toy.library) (Toy.start_with 7 Toy.big_table)).1 = Ok data ∧
    Z.of_nat (length data) = 10000 ∧
    data ⊆+ Toy.big_table.
Proof.
  destruct (cell_4_samples (L := Toy.library) Toy.big_table
              (Toy.start_with 7 Toy.big_table))
    as (data & Hrun & Hlen & Hsub & _).
  - apply lookup_singleton_eq.
  - unfold Toy.big_table. rewrite length_fmap, length_seq. lia.
  - exists data. split; [exact Hrun|]. split; [exact Hlen|exact Hsub].
Defined.

(** Sampling and splitting the file of 10001 rows. *)
Lemma load_then_split_witness :
  ∃ data X_train X_test y_train y_test,
    (cell_4 (L := Toy.library) (Toy.start_with 7 Toy.big_table)).1 = Ok data ∧
    (cell_6 (L := Toy.library) data
       (cell_4 (L := Toy.library) (Toy.start_with 7 Toy.big_table)).2).1
      = Ok (X_train, X_test, y_train, y_test) ∧
    Z.of_nat (length X_train) = 7000 ∧ Z.of_nat (length X_test) = 3000.
Proof.
  destruct (load_then_split (L := Toy.library) Toy.big_table
              (Toy.start_with 7 Toy.big_table))
    as (data & X_train & X_test & y_train & y_test &
        Hload & Hsplit & Htr & _ & Hte & _).
  - apply lookup_singleton_eq.
  - unfold Toy.big_table. rewrite length_fmap, length_seq. lia.
  - exists data, X_train, X_test, y_train, y_test.
    split; [exact Hload|]. split; [exact Hsplit|].
    split; [exact Htr|exact Hte].
Defined.

(** The five calls on the split of the ten-row table. *)
Lemma fit_and_score_blocks_witness :
  ∃ none balanced dict weighted,
    is_block (L := Toy.library) none ∧
    stdout (fit_and_score_cells (L := Toy.library) Toy.X_train Toy.X_test
              Toy.y_train Toy.y_test (Toy.start Toy.table)).2
      = none ++ balanced ++ dict ++ none ++ weighted.
Proof.
  destruct (fit_and_score_blocks (L := Toy.library) Toy.X_train Toy.X_test
              Toy.y_train Toy.y_test (Toy.start Toy.table))
    as (b1 & b2 & b3 & b5 & Hb1 & _ & _ & _ & Hout).
  { vm_compute. reflexivity. }
  exists b1, b2, b3, b5. split; [exact Hb1|exact Hout].
Defined.

(** The pipeline on the ten-row table fits five times, on the seven
    training rows. *)
Lemma pipeline_fits_training_only_witness :
  ∃ k, (1 ≤ k ≤ 5)%nat ∧
    fitted_on (trace (pipeline (L := Toy.library) Toy.table
                        (Toy.start Toy.table)).2)
      = replicate k (Toy.X_train, Toy.y_train) ∧
    k = 5%nat.
Proof.
  pose proof (pipeline_fits_training_only (L := Toy.library) Toy.table
                (Toy.start Toy.table)) as H.
  change ((cell_6 (L := Toy.library) Toy.table (Toy.start Toy.table)).1)
    with (Ok (A := DataFrame Z * DataFrame Z * Series Z * Series Z)
             (Toy.X_train, Toy.X_test, Toy.y_train, Toy.y_test)) in H.
  destruct H as (k & Hk & Hfits & Hok).
  exists k. split; [exact Hk|]. split; [exact Hfits|].
  apply Hok. vm_compute. reflexivity.
Defined.

(** ** Labels, class weights and what is written *)

Section LabelsAndOutput.
Context `{L : Library}.

(** Cell 4 when it returns: the file had enough rows, and the table is the
    sample drawn from it. *)
Lemma cell_4_inv (df data : Table float) w :
  files w !! csv_path = Some df →
  (cell_4 w).1 = Ok data →
  (10000 ≤ Z.of_nat (length df))%Z ∧
  data = omap (λ i, df !! i)
              (take (Z.to_nat 10000)
                    (permutation (np_random w) (length df)).1).
Proof.
  intros Hfile Hrun.
  destruct (decide (Z.of_nat (length df) < 10000)) as [Hlt|Hge].
  - exfalso. revert Hrun. unfold cell_4, sample. run. rewrite Hfile. cbn.
    destruct (decide (10000 < 0)) as [|_]; [lia|].
    by rewrite decide_True by done.
  - split; [lia|]. rewrite (cell_4_run df) in Hrun by (done || lia).
    by injection Hrun as <-.
Qed.

Lemma cell_4_stdout w : stdout (cell_4 w).2 = stdout w.
Proof.
  destruct w as [tr g fs]. unfold cell_4, sample, iloc. run.
  destruct (fs !! csv_path) as [df|]; cbn.
  2: { unfold stdout; cbn. rewrite omap_app; cbn. apply app_nil_r. }
  destruct (decide (10000 < 0)) as [|_]; [lia|].
  destruct (decide (Z.of_nat (length df) < 10000)); cbn.
  { unfold stdout; cbn. rewrite !omap_app; cbn. by rewrite !app_nil_r. }
  destruct (mapM _ _); cbn;
    unfold stdout; cbn; rewrite !omap_app; cbn; by rewrite !app_nil_r.
Qed.

Lemma pipeline_dicts data : emits dict_is_cell_11 (pipeline data).
Proof.
  unfold pipeline. apply emits_bind.
  - unfold cell_6, train_test_split. emits; by intros d.
  - intros [[[X_train X_test] y_train] y_test].
    apply fit_and_score_cells_dicts.
Qed.

Lemma run_Logit_emits_metric v X_train X_test y_train y_test :
  emits is_metric_event (run_Logit_with v X_train X_test y_train y_test).
Proof.
  destruct v; cbn; unfold ClassWeight.run_Logit, SampleWeight.run_Logit;
    unfold fit, print, predict_proba, roc_auc_score; cbn; emits;
    unfold is_metric_line; eauto.
Qed.

Lemma metric_event_prints ev : is_metric_event ev → prints_metric ev.
Proof.
  unfold prints_metric. destruct ev; cbn; try done; intros Hline;
    first [by constructor | constructor; [exact Hline|constructor]].
Qed.

Lemma pipeline_prints_metric data : emits prints_metric (pipeline data).
Proof.
  unfold pipeline. apply emits_bind.
  - unfold cell_6, train_test_split. emits; constructor.
  - intros [[[X_train X_test] y_train] y_test].
    unfold fit_and_score_cells. emits.
    all: first [ eapply emits_mono;
                   [|apply (run_Logit_emits_metric (ByClassWeight _))]
               | eapply emits_mono;
                   [|apply (run_Logit_emits_metric (BySampleWeight _))] ].
    all: apply metric_event_prints.
Qed.

Lemma printed_metric evs :
  Forall prints_metric evs → Forall is_metric_line (printed evs).
Proof.
  induction 1 as [|ev evs Hev _ IH]; [constructor|].
  change (printed (ev :: evs)) with (printed ([ev] ++ evs)).
  unfold printed in *. rewrite omap_app. by apply Forall_app.
Qed.

(** What any run of the notebook writes to standard output: the names of
    cell 1, then metric text. *)
Lemma notebook_stdout w :
  ∃ metric,
    stdout (notebook w).2 = stdout w ++ listed_names ++ metric ∧
    Forall is_metric_line metric.
Proof.
  unfold notebook, listed_names. rewrite bind_run.
  destruct (all_estimators_impl "classifier") as [ests|e] eqn:Hests.
  - rewrite (cell_1_run w ests Hests). rewrite bind_run.
    set (w1 := add_events w _).
    assert (stdout w1 = stdout w ++ with_class_weight ests) as Hw1.
    { unfold w1. rewrite stdout_add_events. f_equal.
      apply (listing_events_stdout ests). }
    pose proof (cell_4_stdout w1) as Hw2.
    destruct (cell_4 w1) as [[data|e] w2]; cbn [snd] in Hw2.
    + destruct (pipeline_prints_metric data) as (r & evs & Hevs & Hrun).
      rewrite Hrun. cbn [snd]. exists (printed evs).
      rewrite stdout_add_events, Hw2, Hw1.
      split; [by rewrite (assoc_L (++))|by apply printed_metric].
    + exists []. cbn [snd]. rewrite Hw2, Hw1.
      split; [by rewrite app_nil_r|constructor].
  - exists []. split; [|constructor].
    unfold cell_1. rewrite bind_run. unfold all_estimators. run.
    rewrite Hests. destruct w; unfold stdout; cbn.
    rewrite omap_app; cbn. by rewrite !app_nil_r.
Qed.

(** C6, amended. The code does not check the label column: the table cell 4
    loads is a sample of the rows of the file, labels unchanged, and the
    split hands the labels on unchanged, so the loaded and the split labels
    are -1 or +1 whenever those of the file are, and only then guaranteed.
    The only dict passed as [class_weight] in a run of the pipeline is
    [{-1:1, 1:10}]: its keys are exactly -1 and +1 and its penalties are
    positive. *)
Theorem labels_from_file_and_class_weights :
  (∀ (df data : Table float) w,
     files w !! csv_path = Some df →
     (cell_4 w).1 = Ok data →
     data ⊆+ df ∧
     (Forall (λ r : nat * row float, binary_label (target r.2)) df →
      Forall (λ r : nat * row float, binary_label (target r.2)) data)) ∧
  (∀ (data : Table float) w X_train X_test y_train y_test,
     (cell_6 data w).1 = Ok (X_train, X_test, y_train, y_test) →
     y_train ++ y_test ≡ₚ target_column data ∧
     (Forall (λ r : nat * row float, binary_label (target r.2)) data →
      Forall (λ e : nat * Z, binary_label e.2) (y_train ++ y_test))) ∧
  (∀ data w d,
     d ∈ class_weight_dicts (trace (pipeline data w).2) →
     d ∈ class_weight_dicts (trace w) ∨ d = cell_11_weights) ∧
  dom cell_11_weights = {[ -1; 1 ]} ∧
  map_Forall (λ _ penalty, 0 < penalty) cell_11_weights.
Proof.
  split_and!.
  - intros df data w Hfile Hrun.
    destruct (cell_4_inv df data w Hfile Hrun) as [Hlen ->].
    assert (omap (λ i, df !! i)
              (take (Z.to_nat 10000)
                    (permutation (np_random w) (length df)).1) ⊆+ df)
      as Hsub by apply omap_lookup_take_submseteq, permutation_perm.
    split; [done|]. intros Hdf.
    apply Forall_forall. intros r Hr.
    eapply Forall_forall in Hdf; [exact Hdf|].
    eapply elem_of_submseteq; eauto.
  - intros data w X_train X_test y_train y_test Hrun.
    destruct (cell_6_inv _ _ _ _ _ _ Hrun)
      as (ind_train & ind_test & Hperm & _ & _ & -> & ->).
    assert (omap (λ i, target_column data !! i) ind_train ++
            omap (λ i, target_column data !! i) ind_test
            ≡ₚ target_column data) as Hy.
    { rewrite <- omap_app. apply omap_lookup_perm.
      unfold target_column. by rewrite length_fmap. }
    split; [done|]. intros Hdata. rewrite Hy.
    unfold target_column. apply Forall_fmap.
    eapply Forall_impl; [exact Hdata|done].
  - intros data w d.
    destruct (pipeline_dicts data) as (r & evs & Hevs & Hrun).
    rewrite Hrun. cbn. unfold class_weight_dicts at 1. rewrite omap_app.
    intros [Hd|Hd]%elem_of_app; [by left|right].
    by eapply class_weight_dicts_elem.
  - unfold cell_11_weights. rewrite dom_insert_L, dom_singleton_L.
    set_solver.
  - unfold cell_11_weights. intros k v.
    rewrite lookup_insert. case_decide; [by intros [= <-]|].
    rewrite lookup_singleton. case_decide; [by intros [= <-]|done].
Qed.

(** C7, amended. The CSV file is read exactly once in a run that gets past
    the listing of cell 1 and never more than once, under the relative path
    ['../kdd2004.csv'], before every sampling, split, fit or scoring step.
    A call of [run_Logit], in either definition, returns no value: from any
    state it yields the same result and appends the same events, which are
    fit, predict and score calls and prints of metric text, and it leaves
    the generator and the files as they were, so nothing of the fitted
    classifier outlives the call.  Standard output receives the class names
    of cell 1 and after them metric text only; no run changes the files. *)
Theorem csv_read_once_output_bounded :
  is_relative csv_path = true ∧
  (∀ w, ∃ pre post,
     trace (notebook w).2 = trace w ++ pre ++ post ∧
     Forall is_listing pre ∧
     (((cell_1 w).1 ≠ Ok () ∧ post = []) ∨
      ((cell_1 w).1 = Ok () ∧
       ∃ rest, post = ReadCsv csv_path :: rest ∧
               Forall (λ ev, ¬ is_read ev) rest))) ∧
  (∀ w, csv_reads (trace (notebook w).2) =
        csv_reads (trace w) ++
        match (cell_1 w).1 with Ok _ => [csv_path] | Raise _ => [] end) ∧
  (∀ v X_train X_test y_train y_test,
     emits is_metric_event (run_Logit_with v X_train X_test y_train y_test)) ∧
  (∀ w, ∃ metric,
     stdout (notebook w).2 = stdout w ++ listed_names ++ metric ∧
     Forall is_metric_line metric) ∧
  (∀ w, files (notebook w).2 = files w).
Proof.
  split_and!.
  - done.
  - intros w. destruct (notebook_run w) as (pre & post & g & Hw & Hpre & H).
    exists pre, post. rewrite Hw. split_and!; [done..|]. tauto.
  - intros w. destruct (notebook_run w) as (pre & post & g & Hw & Hpre & H).
    rewrite Hw. cbn. unfold csv_reads. rewrite !omap_app.
    fold (csv_reads pre) (csv_reads post).
    rewrite (csv_reads_none pre)
      by (eapply Forall_impl; [done|apply listing_not_read]).
    destruct H as [(_ & Hne & ->)|(Hok & rest & -> & Hrest)].
    + destruct (cell_1 w).1 as [[]|]; done.
    + rewrite Hok. cbn. fold (csv_reads rest).
      by rewrite (csv_reads_none rest).
  - apply run_Logit_emits_metric.
  - apply notebook_stdout.
  - intros w. destruct (notebook_run w) as (pre & post & g & Hw & _).
    by rewrite Hw.
Qed.
End LabelsAndOutput.

(** C6, as stated, fails: cell 4 loads a file whose labels are all 5
    without complaint, and every row of the loaded table has label 5. *)
Lemma cell_4_loads_any_labels :
  (∃ data,
     (cell_4 (L := Toy.library) (Toy.start_with 7 Toy.odd_table)).1 = Ok data ∧
     Z.of_nat (length data) = 10000 ∧
     Forall (λ r : nat * row Z, target r.2 = 5) data) ∧
  ¬ loaded_labels_binary (L := Toy.library).
Proof.
  assert (length Toy.odd_table = Z.to_nat 10001) as Hlen
    by (unfold Toy.odd_table; by rewrite length_fmap, length_seq).
  assert (10000 ≤ Z.of_nat (length Toy.odd_table))%Z as Hge
    by (rewrite Hlen; lia).
  pose proof (cell_4_run (L := Toy.library) Toy.odd_table
                (Toy.start_with 7 Toy.odd_table)
                (lookup_singleton_eq _ _) Hge) as Hrun.
  set (data := omap _ _) in Hrun.
  assert (data ⊆+ Toy.odd_table) as Hsub
    by apply omap_lookup_take_submseteq,
             (permutation_perm (Library := Toy.library)).
  assert (length data = Z.to_nat 10000) as Hdata.
  { apply sampled_length;
      [apply (permutation_perm (Library := Toy.library))|].
    unfold Toy.odd_table. rewrite length_fmap, length_seq. lia. }
  assert (Forall (λ r : nat * row Z, target r.2 = 5) data) as Hfive.
  { apply Forall_forall. intros r Hr.
    apply (elem_of_submseteq _ _ _ Hr) in Hsub.
    unfold Toy.odd_table in Hsub.
    by apply list_elem_of_fmap in Hsub as (i & -> & _). }
  split.
  - exists data. rewrite Hrun. split; [done|]. split; [lia|done].
  - intros Hclaim. specialize (Hclaim _ data (f_equal fst Hrun)).
    destruct data as [|r data']; [cbn in Hdata; lia|].
    apply Forall_cons in Hclaim as [[Hr|Hr] _];
      apply Forall_cons in Hfive as [Hfive _];
      discriminate (eq_trans (eq_sym Hr) Hfive).
Qed.

(** Loading the file of 10001 rows, all of them labelled -1. *)
Lemma labels_from_file_and_class_weights_witness :
  ∃ data,
    (cell_4 (L := Toy.library) (Toy.start_with 7 Toy.big_table)).1 = Ok data ∧
    data ⊆+ Toy.big_table ∧
    Forall (λ r : nat * row Z, binary_label (target r.2)) data.
Proof.
  assert (length Toy.big_table = Z.to_nat 10001) as Hlen
    by (unfold Toy.big_table; by rewrite length_fmap, length_seq).
  assert (10000 ≤ Z.of_nat (length Toy.big_table))%Z as Hge
    by (rewrite Hlen; lia).
  pose proof (cell_4_run (L := Toy.library) Toy.big_table
                (Toy.start_with 7 Toy.big_table)
                (lookup_singleton_eq _ _) Hge) as Hrun.
  set (data := omap _ _) in Hrun.
  destruct (labels_from_file_and_class_weights (L := Toy.library))
    as (Hload & _).
  destruct (Hload Toy.big_table data (Toy.start_with 7 Toy.big_table)
              (lookup_singleton_eq _ _) (f_equal fst Hrun)) as [Hsub Hlabels].
  exists data. split; [exact (f_equal fst Hrun)|]. split; [exact Hsub|].
  apply Hlabels. unfold Toy.big_table. apply Forall_fmap.
  apply Forall_forall. intros i _. by left.
Defined.

(** C7, as stated, fails: the notebook writes the class names of cell 1 to
    standard output, and a class name is not metric text. *)
Lemma cell_1_prints_class_names :
  "LogisticRegression"
    ∈ stdout (notebook (L := Toy.library) (Toy.start Toy.table)).2 ∧
  ¬ is_metric_line (L := Toy.library) "LogisticRegression" ∧
  ¬ only_metric_text_written (L := Toy.library).
Proof.
  assert (¬ is_metric_line (L := Toy.library) "LogisticRegression") as Hname.
  { intros [H|[H|[score H]]]; [discriminate H..|].
    unfold score_line in H. cbn in H. discriminate H. }
  assert ("LogisticRegression"
            ∈ stdout (notebook (L := Toy.library) (Toy.start Toy.table)).2)
    as Hout.
  { assert (stdout (notebook (L := Toy.library) (Toy.start Toy.table)).2
            = ["LogisticRegression"; "SVC"]) as ->
      by (vm_compute; reflexivity).
    by left. }
  split_and!; [done..|].
  intros Hclaim. destruct (Hclaim _ _ Hout) as [Hin|Hline]; [|done].
  by apply elem_of_nil in Hin.
Qed.
